(** * Token-aware chunking of parsed statutes

    A shallow embedding of the chunking code of the Finlex ingestion
    example: [src/chunk.py] (the single-pass pipeline) and
    [src-multi/stage3_chunk.py] (stage 3 of the staged pipeline), with the
    code around them: the batch entry point and the stage's
    [process_document], the section extraction and full text of the two
    parsers ([src/parse.py], [src-multi/stage2_parse.py]) and the batched
    embedding call of [src/embed.py].

    Conventions of the embedding:
    - a Python [str] is a [string]; one [ascii] stands for one code point
      (code points below 256), so [len] is [String.length];
    - a Python [int] is a [Z]; offsets handed to the standard string
      functions are [nat];
    - the tiktoken encoding object is a record of two functions, passed
      around explicitly as the source passes [encoding];
    - the [while] loop of [chunk_text] is run with fuel: one unit of fuel
      per iteration, and running out is reported, never hidden. *)

From Stdlib Require Import ZArith List Lia Bool Ascii String DecimalString.
From Stdlib Require DecimalPos DecimalZ.
Import ListNotations.

Open Scope string_scope.
Open Scope Z_scope.

(** ** Python primitives *)

Module Py.

(** [len(s)] for a string and for a list. *)
Definition len (s : string) : Z := Z.of_nat (String.length s).
Definition llen {A : Type} (l : list A) : Z := Z.of_nat (List.length l).

(** Normalisation of one slice bound against a sequence of length [n]:
    a negative bound counts from the end, and every bound is clamped
    into [0..n]. *)
Definition clamp (n i : Z) : Z :=
  if i <? 0 then Z.max 0 (i + n) else Z.min i n.

(** [l[lo:hi]] *)
Definition slice {A : Type} (l : list A) (lo hi : Z) : list A :=
  let n := llen l in
  let a := clamp n lo in
  let b := clamp n hi in
  firstn (Z.to_nat (b - a)) (skipn (Z.to_nat a) l).

(** [s[:hi]] for [hi >= 0]. *)
Definition str_upto (s : string) (hi : Z) : string :=
  substring 0 (Z.to_nat hi) s.

(** [str(n)] for an integer, as an f-string renders it. *)
Definition str_of_int (n : Z) : string :=
  NilZero.string_of_int (Z.to_int n).

(** [c.isspace()] for a code point below 256: TAB..CR, FS..US, SPACE,
    NEL and NBSP. *)
Definition isspace (c : ascii) : bool :=
  let n := nat_of_ascii c in
  ((9 <=? n) && (n <=? 13) || (28 <=? n) && (n <=? 32)
   || (n =? 133) || (n =? 160))%nat.

(** [list(enumerate(l))] *)
Fixpoint enumerate_from {A : Type} (i : Z) (l : list A) : list (Z * A) :=
  match l with
  | [] => []
  | x :: l' => (i, x) :: enumerate_from (i + 1) l'
  end.
Definition enumerate {A : Type} (l : list A) : list (Z * A) :=
  enumerate_from 0 l.

(** [s.find(sub, start)] for [start >= 0]: lowest offset at or after
    [start] where [sub] occurs, or [-1]. *)
Definition find (s sub : string) (start : nat) : Z :=
  match String.index start sub s with
  | Some p => Z.of_nat p
  | None => -1
  end.

End Py.

(** Line feed, and the paragraph break ['\n\n']. *)
Definition LF : ascii := "010"%char.
Definition para_break : string := String LF (String LF "").

(** ** Boundary finder *)

(** [text[i] in '.!?'] *)
Definition in_punct (c : ascii) : bool :=
  (c =? ".")%char || (c =? "!")%char || (c =? "?")%char.

(** The test of the [for] loop of [find_sentence_boundary] at offset [i]:
    [text[i] in '.!?' and (i + 1 >= len(text) or text[i + 1].isspace())].
    The loop only visits [i < len(text)], so [text[i]] is defined there. *)
Definition sentence_test (text : string) (i : nat) : bool :=
  match get i text with
  | Some c =>
      in_punct c &&
      ((String.length text <=? i + 1)%nat ||
       match get (i + 1) text with
       | Some d => Py.isspace d
       | None => false
       end)
  | None => false
  end.

(** [for i in range(i, i + count): if test: return i + 1]; [None] when the
    loop falls through. *)
Fixpoint sentence_loop (text : string) (i count : nat) : option nat :=
  match count with
  | O => None
  | S count' =>
      if sentence_test text i then Some (i + 1)%nat
      else sentence_loop text (i + 1) count'
  end.

(** [find_sentence_boundary(text, start_pos)], chunk.py lines 179-200 (and,
    word for word, stage3_chunk.py lines 134-145). [start_pos] is a
    non-negative offset: the only caller passes [int(len(chunk_text) * 0.8)]. *)
Definition find_sentence_boundary (text : string) (start_pos : nat) : Z :=
  match sentence_loop text start_pos (String.length text - start_pos) with
  | Some r => Z.of_nat r
  | None =>
      let para_pos := Py.find text para_break start_pos in
      if 0 <? para_pos then para_pos else -1
  end.

(** ** Data model *)

(** A section of a parsed document (a dict built by the parser). *)
Record Section : Type := {
  level : Z;
  number : option string;
  heading : option string;
  paragraphs : list string
}.

(** The parsed document handed to the chunker. A field read with
    [doc.get(key)] is optional ([None] for a missing key as for a key
    holding [None]); [document_id] and [title] are read with [doc[key]] and
    are always set by the parser. [document_type] is read with a default,
    [doc.get('document_type', 'statute')], which tells a missing key
    ([None] here) from a key holding [None] ([Some None] here, as the
    parsers store it for a type element without a value). *)
Module Doc.
Record ParsedDocument : Type := {
  document_id : string;
  title : string;
  document_type : option (option string);
  publication_date : option string;
  effective_date : option string;
  year : option string;
  sections : list Section;
  full_text : string;
  last_modified : option string
}.
End Doc.

(** The chunk dict built by [create_chunk_dict]. *)
Module Chunk.
Record ChunkRecord : Type := {
  id : string;
  document_id : string;
  document_type : option string;
  title : string;
  content : string;
  publication_date : option string;
  effective_date : option string;
  year : option string;
  section_number : option string;
  section_heading : option string;
  chunk_index : Z;
  last_modified : option string
}.

(** [chunk['chunk_index'] = i]: only that key changes. *)
Definition set_chunk_index (chunk : ChunkRecord) (i : Z) : ChunkRecord :=
  {| id := id chunk;
     document_id := document_id chunk;
     document_type := document_type chunk;
     title := title chunk;
     content := content chunk;
     publication_date := publication_date chunk;
     effective_date := effective_date chunk;
     year := year chunk;
     section_number := section_number chunk;
     section_heading := section_heading chunk;
     chunk_index := i;
     last_modified := last_modified chunk |}.
End Chunk.

Abbreviation ParsedDocument := Doc.ParsedDocument.
Abbreviation ChunkRecord := Chunk.ChunkRecord.

(** ** Tokenizer and outcomes *)

(** The tiktoken encoding object: the chunker only calls [encode] and
    [decode] on it. Token ids are integers. *)
Record Encoding : Type := {
  encode : string -> list Z;
  decode : list Z -> string
}.

(** Exceptions the chunking functions raise on their own. *)
Inductive PyError : Type :=
| UnboundLocalError (name : string).

(** What a call does: it returns a value, raises, or is still looping
    when the fuel is spent. *)
Inductive outcome (A : Type) : Type :=
| Returns (a : A)
| Raises (e : PyError)
| OutOfFuel.
Arguments Returns {A} a.
Arguments Raises {A} e.
Arguments OutOfFuel {A}.

Definition bind {A B : Type} (m : outcome A) (k : A -> outcome B) : outcome B :=
  match m with
  | Returns a => k a
  | Raises e => Raises e
  | OutOfFuel => OutOfFuel
  end.

Notation "x <- m ;; k" := (bind m (fun x => k))
  (at level 61, m at next level, right associativity).

(** The state of the loops of [chunk_document]: the list [chunks] and the
    counter [chunk_index]. *)
Definition DocState : Type := (list ChunkRecord * Z)%type.

(** Body of the inner [for chunk in section_chunks] loop:
    [chunk['chunk_index'] = chunk_index; chunks.append(chunk);
     chunk_index += 1]. *)
Definition renumber (st : DocState) (chunk : ChunkRecord) : DocState :=
  ((fst st ++ [Chunk.set_chunk_index chunk (snd st)])%list, snd st + 1).

(** [int(n * 0.8)] for a length [n]: the float product truncates to the
    integer quotient [4n / 5] for every length below 2^50. *)
Definition int_08 (n : Z) : Z := 4 * n / 5.

(** ** The single-pass chunker, [src/chunk.py] *)

Module Single.

Definition MIN_CHUNK_SIZE : Z := 800.
Definition MAX_CHUNK_SIZE : Z := 1000.
Definition OVERLAP_SIZE : Z := 100.

(** [create_chunk_dict], lines 202-233. *)
Definition create_chunk_dict (doc : ParsedDocument) (content : string)
    (chunk_index : Z) (section_number section_heading : option string)
    : ChunkRecord :=
  let chunk_id :=
    Doc.document_id doc ++ "_chunk_" ++ Py.str_of_int chunk_index in
  {| Chunk.id := chunk_id;
     Chunk.document_id := Doc.document_id doc;
     Chunk.document_type :=
       match Doc.document_type doc with
       | Some value => value
       | None => Some "statute"
       end;
     Chunk.title := Doc.title doc;
     Chunk.content := content;
     Chunk.publication_date := Doc.publication_date doc;
     Chunk.effective_date := Doc.effective_date doc;
     Chunk.year := Doc.year doc;
     Chunk.section_number := section_number;
     Chunk.section_heading := section_heading;
     Chunk.chunk_index := chunk_index;
     Chunk.last_modified := Doc.last_modified doc |}.

(** One iteration of the [while] loop of [chunk_text], lines 153-175, at
    cursor [start]: the chunk it appends and the next cursor. *)
Definition chunk_text_iter (encoding : Encoding) (tokens : list Z)
    (min_size max_size overlap start : Z) : string * Z :=
  let end_ := Z.min (start + max_size) (Py.llen tokens) in
  let chunk_tokens := Py.slice tokens start end_ in
  let chunk_text := decode encoding chunk_tokens in
  let '(chunk_text, end_) :=
    if (end_ <? Py.llen tokens) && (min_size <=? Py.llen chunk_tokens) then
      let search_start := Z.to_nat (int_08 (Py.len chunk_text)) in
      let sentence_end := find_sentence_boundary chunk_text search_start in
      if 0 <? sentence_end then
        let chunk_text := Py.str_upto chunk_text sentence_end in
        let chunk_tokens := encode encoding chunk_text in
        (chunk_text, start + Py.llen chunk_tokens)
      else (chunk_text, end_)
    else (chunk_text, end_) in
  (chunk_text, if end_ <? Py.llen tokens then end_ - overlap else end_).

(** [while start < len(tokens): ...], one unit of fuel per iteration. *)
Fixpoint chunk_text_loop (fuel : nat) (encoding : Encoding)
    (tokens : list Z) (min_size max_size overlap start : Z)
    (chunks : list string) : outcome (list string) :=
  if start <? Py.llen tokens then
    match fuel with
    | O => OutOfFuel
    | S fuel' =>
        let '(chunk_text, start') :=
          chunk_text_iter encoding tokens min_size max_size overlap start in
        chunk_text_loop fuel' encoding tokens min_size max_size overlap
          start' (chunks ++ [chunk_text])%list
    end
  else Returns chunks.

(** [chunk_text(text, encoding, min_size, max_size, overlap)],
    lines 129-177. *)
Definition chunk_text (fuel : nat) (text : string) (encoding : Encoding)
    (min_size max_size overlap : Z) : outcome (list string) :=
  let tokens := encode encoding text in
  if Py.llen tokens <=? max_size then Returns [text]
  else chunk_text_loop fuel encoding tokens min_size max_size overlap 0 [].

(** The text of a section, lines 94-102: the heading line, when the
    heading is neither [None] nor [''], then the paragraphs, joined by
    blank lines. *)
Definition section_text (section : Section) : string :=
  let section_parts :=
    (match heading section with
     | Some (String _ _ as h) => [("## " ++ h)%string]
     | _ => []
     end ++ paragraphs section)%list in
  String.concat para_break section_parts.

(** [chunk_section], lines 80-127. The target of the loop on line 118 is
    named [chunk_text], which makes that name a local variable of the
    whole function body: the call [chunk_text(section_text, encoding)] on
    line 117 reads the local before it is bound and raises
    [UnboundLocalError]. The oversized branch therefore never reaches the
    splitter. *)
Definition chunk_section (doc : ParsedDocument) (section : Section)
    (encoding : Encoding) : outcome (list ChunkRecord) :=
  let section_text := section_text section in
  let tokens := encode encoding section_text in
  if Py.llen tokens <=? MAX_CHUNK_SIZE then
    Returns [create_chunk_dict doc section_text 0
               (number section) (heading section)]
  else
    Raises (UnboundLocalError "chunk_text").

(** The [for section in sections] loop of [chunk_document],
    lines 58-63. *)
Fixpoint sections_loop (doc : ParsedDocument) (encoding : Encoding)
    (sections : list Section) (st : DocState) : outcome DocState :=
  match sections with
  | [] => Returns st
  | section :: rest =>
      section_chunks <- chunk_section doc section encoding ;;
      sections_loop doc encoding rest (fold_left renumber section_chunks st)
  end.

(** [chunk_document], lines 41-78. *)
Definition chunk_document (fuel : nat) (doc : ParsedDocument)
    (encoding : Encoding) : outcome (list ChunkRecord) :=
  let chunks := [] in
  let chunk_index := 0 in
  match Doc.sections doc with
  | _ :: _ =>
      st <- sections_loop doc encoding (Doc.sections doc)
              (chunks, chunk_index) ;;
      Returns (fst st)
  | [] =>
      match Doc.full_text doc with
      | String _ _ =>
          text_chunks <- chunk_text fuel (Doc.full_text doc) encoding
                           MIN_CHUNK_SIZE MAX_CHUNK_SIZE OVERLAP_SIZE ;;
          Returns (chunks ++
                   map (fun it => create_chunk_dict doc (snd it) (fst it)
                                    None None)
                       (Py.enumerate text_chunks))%list
      | EmptyString => Returns chunks
      end
  end.

End Single.

(** ** The staged chunker, [src-multi/stage3_chunk.py] *)

Module Staged.

(** The three sizes are read from the environment when the stage starts
    ([MIN_CHUNK_SIZE], [MAX_CHUNK_SIZE], [OVERLAP_SIZE], lines 29-31). *)
Record Config : Type := {
  MIN_CHUNK_SIZE : Z;
  MAX_CHUNK_SIZE : Z;
  OVERLAP_SIZE : Z
}.

(** The values used when the environment sets none of them. *)
Definition default_config : Config :=
  {| MIN_CHUNK_SIZE := 800; MAX_CHUNK_SIZE := 1000; OVERLAP_SIZE := 100 |}.

(** [create_chunk_dict], lines 147-165. *)
Definition create_chunk_dict (doc : ParsedDocument) (content : string)
    (chunk_index : Z) (section_number section_heading : option string)
    : ChunkRecord :=
  let chunk_id :=
    Doc.document_id doc ++ "_chunk_" ++ Py.str_of_int chunk_index in
  {| Chunk.id := chunk_id;
     Chunk.document_id := Doc.document_id doc;
     Chunk.document_type :=
       match Doc.document_type doc with
       | Some value => value
       | None => Some "statute"
       end;
     Chunk.title := Doc.title doc;
     Chunk.content := content;
     Chunk.publication_date := Doc.publication_date doc;
     Chunk.effective_date := Doc.effective_date doc;
     Chunk.year := Doc.year doc;
     Chunk.section_number := section_number;
     Chunk.section_heading := section_heading;
     Chunk.chunk_index := chunk_index;
     Chunk.last_modified := Doc.last_modified doc |}.

(** The text of a section, lines 70-78. *)
Definition section_text (section : Section) : string :=
  let section_parts :=
    (match heading section with
     | Some (String _ _ as h) => [("## " ++ h)%string]
     | _ => []
     end ++ paragraphs section)%list in
  String.concat para_break section_parts.

Section WithConfig.

Variable cfg : Config.

(** One iteration of the [while] loop of [chunk_text], lines 115-130. *)
Definition chunk_text_iter (encoding : Encoding) (tokens : list Z)
    (start : Z) : string * Z :=
  let end_ := Z.min (start + MAX_CHUNK_SIZE cfg) (Py.llen tokens) in
  let chunk_tokens := Py.slice tokens start end_ in
  let chunk_text := decode encoding chunk_tokens in
  let '(chunk_text, end_) :=
    if (end_ <? Py.llen tokens)
       && (MIN_CHUNK_SIZE cfg <=? Py.llen chunk_tokens) then
      let search_start := Z.to_nat (int_08 (Py.len chunk_text)) in
      let sentence_end := find_sentence_boundary chunk_text search_start in
      if 0 <? sentence_end then
        let chunk_text := Py.str_upto chunk_text sentence_end in
        let chunk_tokens := encode encoding chunk_text in
        (chunk_text, start + Py.llen chunk_tokens)
      else (chunk_text, end_)
    else (chunk_text, end_) in
  (chunk_text,
   if end_ <? Py.llen tokens then end_ - OVERLAP_SIZE cfg else end_).

Fixpoint chunk_text_loop (fuel : nat) (encoding : Encoding)
    (tokens : list Z) (start : Z) (chunks : list string)
    : outcome (list string) :=
  if start <? Py.llen tokens then
    match fuel with
    | O => OutOfFuel
    | S fuel' =>
        let '(chunk_text, start') :=
          chunk_text_iter encoding tokens start in
        chunk_text_loop fuel' encoding tokens start'
          (chunks ++ [chunk_text])%list
    end
  else Returns chunks.

(** [chunk_text(text, encoding)], lines 104-132. *)
Definition chunk_text (fuel : nat) (text : string) (encoding : Encoding)
    : outcome (list string) :=
  let tokens := encode encoding text in
  if Py.llen tokens <=? MAX_CHUNK_SIZE cfg then Returns [text]
  else chunk_text_loop fuel encoding tokens 0 [].

(** [chunk_section], lines 66-102. As in the single-pass module, the
    loop target on line 93 is named [chunk_text], so the call on line 92
    reads an unbound local and raises. *)
Definition chunk_section (doc : ParsedDocument) (section : Section)
    (encoding : Encoding) : outcome (list ChunkRecord) :=
  let section_text := section_text section in
  let tokens := encode encoding section_text in
  if Py.llen tokens <=? MAX_CHUNK_SIZE cfg then
    Returns [create_chunk_dict doc section_text 0
               (number section) (heading section)]
  else
    Raises (UnboundLocalError "chunk_text").

Fixpoint sections_loop (doc : ParsedDocument) (encoding : Encoding)
    (sections : list Section) (st : DocState) : outcome DocState :=
  match sections with
  | [] => Returns st
  | section :: rest =>
      section_chunks <- chunk_section doc section encoding ;;
      sections_loop doc encoding rest
        (fold_left renumber section_chunks st)
  end.

(** [chunk_document], lines 36-64. *)
Definition chunk_document (fuel : nat) (doc : ParsedDocument)
    (encoding : Encoding) : outcome (list ChunkRecord) :=
  let chunks := [] in
  let chunk_index := 0 in
  match Doc.sections doc with
  | _ :: _ =>
      st <- sections_loop doc encoding (Doc.sections doc)
              (chunks, chunk_index) ;;
      Returns (fst st)
  | [] =>
      match Doc.full_text doc with
      | String _ _ =>
          text_chunks <- chunk_text fuel (Doc.full_text doc) encoding ;;
          Returns (chunks ++
                   map (fun it => create_chunk_dict doc (snd it) (fst it)
                                    None None)
                       (Py.enumerate text_chunks))%list
      | EmptyString => Returns chunks
      end
  end.

End WithConfig.

End Staged.

(** ** A concrete tokenizer

    The simplest encoding that meets the adapter's contract: one token per
    character, the token id being the character's code. It is used to run
    the chunker on concrete inputs. *)

Definition char_encoding : Encoding :=
  {| encode := fun s =>
       map (fun c => Z.of_nat (nat_of_ascii c)) (list_ascii_of_string s);
     decode := fun ts =>
       string_of_list_ascii (map (fun t => ascii_of_nat (Z.to_nat t)) ts) |}.

(** [c * n] *)
Fixpoint repeat_char (c : ascii) (n : nat) : string :=
  match n with
  | O => ""
  | S n' => String c (repeat_char c n')
  end.

(** ** What a boundary is

    The two kinds of boundary the finder looks for, stated on the text
    alone, and the offsets the finder is expected to return. *)

(** A sentence ends at offset [i]: the character there is one of [.!?]
    and is followed by whitespace or by the end of the text. *)
Definition sentence_end_at (text : string) (i : nat) : Prop :=
  exists c, get i text = Some c /\
    (c = "."%char \/ c = "!"%char \/ c = "?"%char) /\
    (get (S i) text = None \/
     exists d, get (S i) text = Some d /\ Py.isspace d = true).

(** A paragraph break ['\n\n'] starts at offset [j]. *)
Definition para_break_at (text : string) (j : nat) : Prop :=
  get j text = Some LF /\ get (S j) text = Some LF.

(** [i] is the first offset at or after [start] where [P] holds. *)
Definition first_from (P : nat -> Prop) (start i : nat) : Prop :=
  (start <= i)%nat /\ P i /\ forall k, (start <= k < i)%nat -> ~ P k.

(** [P] holds nowhere at or after [start]. *)
Definition none_from (P : nat -> Prop) (start : nat) : Prop :=
  forall k, (start <= k)%nat -> ~ P k.

(** The result the boundary finder is described to give: just past the
    first sentence end, else the first paragraph break, else [-1]. *)
Inductive boundary_described (text : string) (start_pos : nat) : Z -> Prop :=
| DescribedSentence (i : nat) :
    first_from (sentence_end_at text) start_pos i ->
    boundary_described text start_pos (Z.of_nat i + 1)
| DescribedParagraph (j : nat) :
    none_from (sentence_end_at text) start_pos ->
    first_from (para_break_at text) start_pos j ->
    boundary_described text start_pos (Z.of_nat j)
| DescribedNotFound :
    none_from (sentence_end_at text) start_pos ->
    none_from (para_break_at text) start_pos ->
    boundary_described text start_pos (-1).

(** The result the boundary finder gives: a paragraph break counts only at
    a positive offset; a text whose first paragraph break (from
    [start_pos]) sits at offset 0 is answered [-1]. *)
Inductive boundary_found (text : string) (start_pos : nat) : Z -> Prop :=
| FoundSentence (i : nat) :
    first_from (sentence_end_at text) start_pos i ->
    boundary_found text start_pos (Z.of_nat i + 1)
| FoundParagraph (j : nat) :
    none_from (sentence_end_at text) start_pos ->
    first_from (para_break_at text) start_pos j ->
    (0 < j)%nat ->
    boundary_found text start_pos (Z.of_nat j)
| FoundNothing :
    none_from (sentence_end_at text) start_pos ->
    none_from (para_break_at text) start_pos \/
    first_from (para_break_at text) start_pos 0 ->
    boundary_found text start_pos (-1).

(** ** Numbering of the records *)

(** The chunk indices of [chunks] are 0, 1, ..., in order. *)
Definition sequential (chunks : list ChunkRecord) : Prop :=
  map Chunk.chunk_index chunks = map Z.of_nat (seq 0 (List.length chunks)).

(** Loop invariant of [chunk_document]: the records appended so far are
    numbered from 0 and the counter is their number. *)
Definition numbered (st : DocState) : Prop :=
  sequential (fst st) /\ snd st = Py.llen (fst st).

(** ** Boundary snapping, seen from outside

    [snap encoding tokens min_size max_size start] is the text that lines
    161-170 of [chunk_text] put in place of the decoded slice at cursor
    [start], when they do: more tokens remain after the slice, the slice
    has at least [min_size] tokens and a boundary is found at a positive
    offset. *)
Definition snap (encoding : Encoding) (tokens : list Z)
    (min_size max_size start : Z) : option string :=
  let end_ := Z.min (start + max_size) (Py.llen tokens) in
  let chunk_tokens := Py.slice tokens start end_ in
  let chunk_text := decode encoding chunk_tokens in
  if (end_ <? Py.llen tokens) && (min_size <=? Py.llen chunk_tokens) then
    let sentence_end :=
      find_sentence_boundary chunk_text
        (Z.to_nat (int_08 (Py.len chunk_text))) in
    if 0 <? sentence_end then Some (Py.str_upto chunk_text sentence_end)
    else None
  else None.

(** ** Sample inputs *)

Definition sample_doc (secs : list Section) (text : string) : ParsedDocument :=
  {| Doc.document_id := "2024-1234";
     Doc.title := "Sample Act";
     Doc.document_type := None;
     Doc.publication_date := Some "2024-05-01";
     Doc.effective_date := None;
     Doc.year := Some "2024";
     Doc.sections := secs;
     Doc.full_text := text;
     Doc.last_modified := Some "2024-05-02T10:00:00" |}.

Definition sec_scope : Section :=
  {| level := 1; number := Some "1"; heading := Some "Scope";
     paragraphs := ["This Act applies to fines."] |}.

Definition sec_penalties : Section :=
  {| level := 1; number := Some "2"; heading := Some "Penalties";
     paragraphs := ["A fine shall apply.";
                    "Imprisonment not exceeding two years."] |}.


(** A section with neither heading nor paragraph. *)
Definition sec_blank : Section :=
  {| level := 1; number := None; heading := None; paragraphs := [] |}.

(** A short text with one sentence end, for small budgets. *)
Definition short_text : string := "aaaaaaaa. bbbbb".

(** ** The batch entry point, [src/chunk.py] *)

(** The [for doc in documents] loop of [chunk_documents], lines 30-36. The
    body runs under [try]: a document whose chunking raises is logged and
    left out, and the loop goes on with the next one. *)
Fixpoint documents_loop (fuel : nat) (documents : list ParsedDocument)
    (encoding : Encoding) (all_chunks : list ChunkRecord)
    : outcome (list ChunkRecord) :=
  match documents with
  | [] => Returns all_chunks
  | doc :: rest =>
      match Single.chunk_document fuel doc encoding with
      | Returns doc_chunks =>
          documents_loop fuel rest encoding (all_chunks ++ doc_chunks)%list
      | Raises _ => documents_loop fuel rest encoding all_chunks
      | OutOfFuel => OutOfFuel
      end
  end.

(** [chunk_documents], lines 17-39. [get_encoding] is what the call
    [tiktoken.get_encoding(ENCODING_MODEL)] of line 27 does; it runs before
    the loop and outside its [try], so an exception it raises leaves the
    function. *)
Definition chunk_documents (fuel : nat) (documents : list ParsedDocument)
    (get_encoding : outcome Encoding) : outcome (list ChunkRecord) :=
  encoding <- get_encoding ;;
  documents_loop fuel documents encoding [].

(** ** Tokenizers that count characters

    An encoding is length-faithful when a text has as many tokens as
    characters, both ways; [char_encoding] is one. *)
Definition length_faithful (encoding : Encoding) : Prop :=
  (forall s, List.length (encode encoding s) = String.length s) /\
  (forall ts, String.length (decode encoding ts) = List.length ts).

(** ** Token-exact cuts

    The number of chunks, and the [i]-th chunk, of a text of [total]
    tokens cut every [max_size - overlap] tokens into slices of at most
    [max_size] tokens. *)
Definition cut_count (total max_size overlap : Z) : nat :=
  Z.to_nat ((total - max_size + (max_size - overlap) - 1)
            / (max_size - overlap) + 1).

Definition cut_at (encoding : Encoding) (tokens : list Z)
    (max_size overlap : Z) (i : nat) : string :=
  let start := Z.of_nat i * (max_size - overlap) in
  decode encoding
    (Py.slice tokens start (Z.min (start + max_size) (Py.llen tokens))).

(** ** More sample inputs and record predicates *)

(** A section whose only paragraph is longer than the budget. *)
Definition sec_long : Section :=
  {| level := 1; number := Some "4"; heading := None;
     paragraphs := [repeat_char "a" 1001] |}.

(** A document whose [document_type] key holds [None]. *)
Definition typeless_doc : ParsedDocument :=
  {| Doc.document_id := "2024-77";
     Doc.title := "Decree";
     Doc.document_type := Some None;
     Doc.publication_date := None;
     Doc.effective_date := None;
     Doc.year := Some "2024";
     Doc.sections := [sec_scope];
     Doc.full_text := "";
     Doc.last_modified := None |}.

(** The record [c] carries the metadata of [doc]: the document type is
    what the document holds under that key, [None] included, and
    ['statute'] when the document has no such key. *)
Definition carries_metadata (doc : ParsedDocument) (c : ChunkRecord) : Prop :=
  Chunk.document_id c = Doc.document_id doc /\
  Chunk.title c = Doc.title doc /\
  Chunk.document_type c
    = match Doc.document_type doc with
      | Some value => value
      | None => Some "statute"
      end /\
  Chunk.publication_date c = Doc.publication_date doc /\
  Chunk.effective_date c = Doc.effective_date doc /\
  Chunk.year c = Doc.year doc /\
  Chunk.last_modified c = Doc.last_modified doc.

(** The id that the record's own [chunk_index] spells. *)
Definition id_matches_index (doc : ParsedDocument) (c : ChunkRecord) : Prop :=
  Chunk.id c
  = (Doc.document_id doc ++ "_chunk_"
       ++ Py.str_of_int (Chunk.chunk_index c))%string.

(** ** More Python string functions *)

Module PyStr.

(** [s.split(sep)] for a one-character separator: the pieces between the
    separators, of which there is always at least one. *)
Fixpoint split_char (sep : ascii) (s : string) : list string :=
  match s with
  | EmptyString => [""]
  | String c s' =>
      if Ascii.eqb c sep then "" :: split_char sep s'
      else match split_char sep s' with
           | piece :: pieces => String c piece :: pieces
           | [] => [String c ""]
           end
  end.

(** [s.replace(old, new)] for a non-empty [old]: the occurrences of [old]
    are replaced from left to right, without overlap. [skip] counts the
    characters of a matched occurrence still to be passed over. *)
Fixpoint replace_from (old new : string) (skip : nat) (s : string) : string :=
  match s with
  | EmptyString => ""
  | String c s' =>
      match skip with
      | S k => replace_from old new k s'
      | O =>
          if String.prefix old s
          then new ++ replace_from old new (String.length old - 1) s'
          else String c (replace_from old new 0 s')
      end
  end.
Definition replace (s old new : string) : string := replace_from old new 0 s.

(** [s.lstrip()], [s.rstrip()] and [s.strip()]: whitespace is what
    [isspace] accepts. *)
Fixpoint lstrip (s : string) : string :=
  match s with
  | EmptyString => ""
  | String c s' => if Py.isspace c then lstrip s' else s
  end.

Fixpoint rstrip (s : string) : string :=
  match s with
  | EmptyString => ""
  | String c s' =>
      match rstrip s' with
      | EmptyString => if Py.isspace c then "" else String c ""
      | r => String c r
      end
  end.

Definition strip (s : string) : string := rstrip (lstrip s).

End PyStr.

(** ** The chunk stage around the chunker, [src-multi/stage3_chunk.py]

    The blob service behind [shared/blob_io.py] is seen as one table per
    container, from blob name to content: [blob_exists] is a lookup,
    an upload (always with [overwrite=True]) replaces the entry, and a
    download of a missing blob raises. The JSON text of a blob stands for
    the value it encodes; transport failures are outside the model. *)

Module Stage3.

Record Store : Type := {
  parsed : string -> option ParsedDocument;
  chunks : string -> option (list ChunkRecord)
}.

(** [blob_exists(CONTAINER_CHUNKS, name)] *)
Definition blob_exists (st : Store) (name : string) : bool :=
  match chunks st name with
  | Some _ => true
  | None => false
  end.

(** [upload_jsonl(CONTAINER_CHUNKS, name, items)] *)
Definition upload_jsonl (st : Store) (name : string)
    (items : list ChunkRecord) : Store :=
  {| parsed := parsed st;
     chunks := fun n => if String.eqb n name then Some items
                        else chunks st n |}.

(** [blob_name.split('/')[-1].replace('.json', '')], line 170. *)
Definition doc_id_of (blob_name : string) : string :=
  PyStr.replace (List.last (PyStr.split_char "/" blob_name) "") ".json" "".

(** [f"{year}/{doc_id}.jsonl"], line 173. *)
Definition output_blob_of (blob_name year : string) : string :=
  year ++ "/" ++ doc_id_of blob_name ++ ".jsonl".

(** [process_document(blob_name, year, encoding)], lines 167-196: the
    count it returns and the store it leaves. The whole body runs under
    [try]; whatever raises (a missing parsed blob, the chunker) ends in
    [return 0]. [skip_existing] is the flag [SKIP_EXISTING] of line 28. *)
Definition process_document (skip_existing : bool) (cfg : Staged.Config)
    (fuel : nat) (st : Store) (blob_name year : string)
    (encoding : Encoding) : outcome (Z * Store) :=
  let output_blob := output_blob_of blob_name year in
  if skip_existing && blob_exists st output_blob then Returns (0, st)
  else
    match parsed st blob_name with
    | None => Returns (0, st)
    | Some doc =>
        match Staged.chunk_document cfg fuel doc encoding with
        | Returns [] => Returns (0, st)
        | Returns chunks =>
            Returns (Py.llen chunks, upload_jsonl st output_blob chunks)
        | Raises _ => Returns (0, st)
        | OutOfFuel => OutOfFuel
        end
    end.

End Stage3.

(** [c in s] for a character [c]. *)
Fixpoint contains_char (c : ascii) (s : string) : bool :=
  match s with
  | EmptyString => false
  | String d s' => Ascii.eqb d c || contains_char c s'
  end.

(** A store with one parsed document and no chunks yet, and the records
    the chunker returns for that document. *)
Definition sample_store : Stage3.Store :=
  {| Stage3.parsed := fun n =>
       if String.eqb n "2024/1234.json"
       then Some (sample_doc [sec_scope; sec_penalties] "")
       else None;
     Stage3.chunks := fun _ => None |}.

Definition sample_records : list ChunkRecord :=
  [Chunk.set_chunk_index
     (Single.create_chunk_dict (sample_doc [sec_scope; sec_penalties] "")
        (Single.section_text sec_scope) 0 (Some "1") (Some "Scope")) 0;
   Chunk.set_chunk_index
     (Single.create_chunk_dict (sample_doc [sec_scope; sec_penalties] "")
        (Single.section_text sec_penalties) 0 (Some "2") (Some "Penalties")) 1].

(** ** The parsers, [src/parse.py] and [src-multi/stage2_parse.py]

    A parsed XML tree as [xml.etree.ElementTree] gives it: an element has
    a tag (with its namespace written out), attributes, the text before
    its first child ([None] when there is none) and its children. *)

Set Warnings "-register-all".

Inductive Element : Type :=
| Elem (tag : string) (attrib : list (string * string))
       (text : option string) (children : list Element).

Module ET.

Definition tag (e : Element) : string :=
  match e with Elem t _ _ _ => t end.
Definition text (e : Element) : option string :=
  match e with Elem _ _ x _ => x end.

(** The elements below [e], at every depth, in document order. *)
Fixpoint below (e : Element) : list Element :=
  match e with
  | Elem _ _ _ children => flat_map (fun c => c :: below c) children
  end.

(** [e.findall('.//name')] and [e.find('.//name')] *)
Definition findall (e : Element) (name : string) : list Element :=
  filter (fun x => String.eqb (tag x) name) (below e).
Definition find (e : Element) (name : string) : option Element :=
  hd_error (findall e name).

End ET.

(** A tag of the Akoma Ntoso namespace, as [AKN_NS] expands [akn:name]. *)
Definition akn (name : string) : string :=
  "{http://docs.oasis-open.org/legaldocml/ns/akn/3.0}" ++ name.

(** [x.text.strip() if x is not None and x.text else None] *)
Definition stripped_text (x : option Element) : option string :=
  match x with
  | Some e =>
      match ET.text e with
      | Some (String _ _ as t) => Some (PyStr.strip t)
      | _ => None
      end
  | None => None
  end.

(** [extract_section_content], parse.py lines 137-169 and, word for word,
    stage2_parse.py lines 102-125. *)
Definition extract_section_content (elem : Element) (level : Z) : Section :=
  let number := stripped_text (ET.find elem (akn "num")) in
  let heading := stripped_text (ET.find elem (akn "heading")) in
  let paragraphs :=
    flat_map
      (fun para =>
         match ET.text para with
         | Some (String _ _ as t) =>
             match PyStr.strip t with
             | String _ _ as text => [text]
             | EmptyString => []
             end
         | _ => []
         end)
      (ET.findall elem (akn "p")) in
  {| level := level; number := number; heading := heading;
     paragraphs := paragraphs |}.

(** Truthiness of a section dict: it has four keys, so it is never
    empty. *)
Definition dict_truthy (section : Section) : bool := true.

Module Parse.

(** One of the three loops of [extract_sections]: the elements named
    [name], each kept [if section:]. *)
Definition collect (root : Element) (name : string) (level : Z)
    : list Section :=
  filter dict_truthy
    (map (fun elem => extract_section_content elem level)
         (ET.findall root (akn name))).

(** [extract_sections], parse.py lines 107-135: sections, then chapters,
    then articles. *)
Definition extract_sections (root : Element) : list Section :=
  (collect root "section" 1 ++ collect root "chapter" 0
   ++ collect root "article" 2)%list.

(** The title, parse.py lines 61-62. *)
Definition title_of (root : Element) : string :=
  match stripped_text (ET.find root (akn "docTitle")) with
  | Some t => t
  | None => "Untitled"
  end.

(** The full text, parse.py lines 80-91. *)
Definition full_text_of (title : string) (sections : list Section) : string :=
  let full_text_parts :=
    (("# " ++ title ++ String LF "")%string
     :: flat_map
          (fun section =>
             let indent :=
               repeat_char "#" (Z.to_nat (Z.min (level section + 2) 6)) in
             (match heading section with
              | Some (String _ _ as h) =>
                  [(String LF "" ++ indent ++ " " ++ h ++ String LF "")%string]
              | _ => []
              end
              ++ map (fun para => (para ++ String LF "")%string)
                     (paragraphs section))%list)
          sections)%list in
  String.concat (String LF "") full_text_parts.

End Parse.

Module Stage2.

(** One of the three loops of [parse_akn_xml], stage2_parse.py lines
    57-72: a section is kept [if section and section.get('paragraphs')]. *)
Definition collect (root : Element) (name : string) (level : Z)
    : list Section :=
  filter (fun section =>
            dict_truthy section
            && match paragraphs section with [] => false | _ => true end)
    (map (fun elem => extract_section_content elem level)
         (ET.findall root (akn name))).

Definition extract_sections (root : Element) : list Section :=
  (collect root "section" 1 ++ collect root "chapter" 0
   ++ collect root "article" 2)%list.

End Stage2.

(** A small statute: a section with heading and text, and a section whose
    only paragraph is blank. *)
Definition sample_root : Element :=
  Elem (akn "akomaNtoso") [] None
    [Elem (akn "docTitle") [] (Some " Sample Act ") [];
     Elem (akn "section") [] None
       [Elem (akn "num") [] (Some "1") [];
        Elem (akn "heading") [] (Some "Scope") [];
        Elem (akn "p") [] (Some "  This Act applies to fines. ") []];
     Elem (akn "section") [] None
       [Elem (akn "num") [] (Some "2") [];
        Elem (akn "p") [] (Some "   ") []]].

(** ** Embedding in batches, [src/embed.py] *)

Module Embed.

Definition BATCH_SIZE : Z := 16.

(** The batches of the loop [for i in range(0, len(l), size): l[i:i + size]]
    (embed.py lines 49-50; index.py lines 61-62 with a size of 1000), for
    a positive [size]. *)
Definition batches {A : Type} (size : Z) (l : list A) : list (list A) :=
  map (fun k => Py.slice l (Z.of_nat k * size) (Z.of_nat k * size + size))
      (seq 0 (Z.to_nat ((Py.llen l + size - 1) / size))).

Section Client.

(** An embedding vector, and the embeddings client: [create texts] is the
    list of [response.data[j].embedding], in order, for a call with
    [input=texts], or [None] when the call raises. *)
Variable Vector : Type.
Variable create : list string -> option (list Vector).

(** The inner loop, lines 64-72: chunk [j] of the batch gets
    [response.data[j].embedding]; a response with too few items raises
    [IndexError]. *)
Fixpoint attach (batch : list ChunkRecord) (data : list Vector)
    : option (list (ChunkRecord * Vector)) :=
  match batch, data with
  | [], _ => Some []
  | chunk :: batch', embedding :: data' =>
      option_map (cons (chunk, embedding)) (attach batch' data')
  | _ :: _, [] => None
  end.

(** The outer loop, lines 49-78; an exception in a batch is logged and
    raised again. *)
Fixpoint embed_loop (todo : list (list ChunkRecord))
    (chunks_with_embeddings : list (ChunkRecord * Vector))
    : option (list (ChunkRecord * Vector)) :=
  match todo with
  | [] => Some chunks_with_embeddings
  | batch :: todo' =>
      match create (map Chunk.content batch) with
      | Some data =>
          match attach batch data with
          | Some embedded =>
              embed_loop todo' (chunks_with_embeddings ++ embedded)%list
          | None => None
          end
      | None => None
      end
  end.

(** [generate_embeddings(chunks)], lines 30-81: the chunks paired with
    their [content_vector], or [None] when it raises. [endpoint_set] says
    whether [AZURE_OPENAI_ENDPOINT] is set. *)
Definition generate_embeddings (endpoint_set : bool)
    (chunks : list ChunkRecord) : option (list (ChunkRecord * Vector)) :=
  if endpoint_set then embed_loop (batches BATCH_SIZE chunks) []
  else None.

End Client.

End Embed.

(** [extract_document_id(filename)], parse.py lines 171-187: the last
    path component without ['.xml'] when [len(parts) > 0], and the file
    name itself otherwise ([return filename], line 187). *)
Definition extract_document_id (filename : string) : string :=
  let parts := PyStr.split_char "/" filename in
  if (0 <? Py.llen parts) then
    let basename := List.last parts "" in
    let doc_id := PyStr.replace basename ".xml" "" in
    doc_id
  else filename.

(** The token window of the [i]-th token-exact cut: [cut_at] decodes it. *)
Definition cut_tokens (tokens : list Z) (max_size overlap : Z) (i : nat)
    : list Z :=
  let start := Z.of_nat i * (max_size - overlap) in
  Py.slice tokens start (Z.min (start + max_size) (Py.llen tokens)).

(** * Properties *)

(** ** Strings *)

Lemma get_none_iff (s : string) (n : nat) :
  get n s = None <-> (String.length s <= n)%nat.
Proof.
  revert n. induction s as [|c s IH]; intros [|n]; simpl; split; intros H;
    try reflexivity; try lia; try discriminate.
  - apply IH in H. lia.
  - apply IH. lia.
Qed.

Lemma substring_para_break (text : string) (j : nat) :
  substring j 2 text = para_break <-> para_break_at text j.
Proof.
  unfold para_break_at, para_break. revert j.
  induction text as [|a text IH]; intros [|j]; simpl.
  - split; [discriminate | intros [H _]; discriminate].
  - split; [discriminate | intros [H _]; discriminate].
  - destruct text as [|b text]; simpl.
    + split; [discriminate | intros [_ H]; discriminate].
    + destruct text; simpl; split; intros H;
        try (injection H as -> ->; split; reflexivity);
        destruct H as [[= ->] [= ->]]; reflexivity.
  - apply IH.
Qed.

Lemma index_ge (s2 s1 : string) (n m : nat) :
  String.index n s1 s2 = Some m -> (n <= m)%nat.
Proof.
  revert n m. induction s2 as [|b s2 IH]; intros [|n] m; simpl; try lia.
  - discriminate.
  - destruct (String.index n s1 s2) as [p|] eqn:E; [|discriminate].
    intros [= <-]. apply IH in E. lia.
Qed.

(** ** The boundary finder *)

Example boundary_after_sentence :
  find_sentence_boundary "Hi. yo" 0 = 3.
Proof. reflexivity. Qed.

Example boundary_at_paragraph :
  find_sentence_boundary (String "a" (String LF (String LF "b"))) 0 = 1.
Proof. reflexivity. Qed.

Example boundary_none :
  find_sentence_boundary "v1.2 and on" 0 = -1.
Proof. reflexivity. Qed.

Example slice_negative_start :
  Py.slice [10; 11; 12; 13; 14] (-2) 5 = [13; 14].
Proof. reflexivity. Qed.

Lemma in_punct_true (c : ascii) :
  in_punct c = true <-> (c = "."%char \/ c = "!"%char \/ c = "?"%char).
Proof.
  unfold in_punct. rewrite !orb_true_iff, !Ascii.eqb_eq. tauto.
Qed.

Lemma sentence_test_true (text : string) (i : nat) :
  sentence_test text i = true <-> sentence_end_at text i.
Proof.
  unfold sentence_test, sentence_end_at.
  replace (i + 1)%nat with (S i) by lia.
  destruct (get i text) as [c|] eqn:Ec.
  - rewrite andb_true_iff, orb_true_iff, in_punct_true, Nat.leb_le.
    rewrite <- get_none_iff. split.
    + intros [Hp Hn]. exists c. repeat split; try assumption.
      destruct Hn as [Hn|Hn]; [left; exact Hn|].
      destruct (get (S i) text) as [d|]; [|discriminate].
      right. exists d. split; [reflexivity | exact Hn].
    + intros [c' [[= <-] [Hp Hn]]]. split; [exact Hp|].
      destruct Hn as [Hn | [d [Hd Hs]]]; [left; exact Hn|].
      right. rewrite Hd. exact Hs.
  - split; [discriminate | intros [c [H _]]; discriminate].
Qed.

Lemma sentence_loop_some (text : string) (count i r : nat) :
  sentence_loop text i count = Some r ->
  exists k, r = S k /\ (k < i + count)%nat /\
            first_from (sentence_end_at text) i k.
Proof.
  revert i. induction count as [|count IH]; intros i; simpl; [discriminate|].
  destruct (sentence_test text i) eqn:Et.
  - intros [= <-]. exists i. repeat split; try lia.
    apply sentence_test_true; exact Et.
  - intros H. apply IH in H. destruct H as [k [-> [Hlt [Hle [Hk Hmin]]]]].
    exists k. repeat split; try lia; try assumption.
    intros j Hj. destruct (Nat.eq_dec j i) as [->|Hne].
    + rewrite <- sentence_test_true, Et. discriminate.
    + apply Hmin. lia.
Qed.

Lemma sentence_loop_none (text : string) (count i : nat) :
  sentence_loop text i count = None ->
  forall k, (i <= k < i + count)%nat -> ~ sentence_end_at text k.
Proof.
  revert i. induction count as [|count IH]; intros i; simpl; [lia|].
  destruct (sentence_test text i) eqn:Et; [discriminate|].
  intros H k Hk. destruct (Nat.eq_dec k i) as [->|Hne].
  - rewrite <- sentence_test_true, Et. discriminate.
  - apply (IH _ H). lia.
Qed.

Lemma sentence_loop_none_from (text : string) (start_pos : nat) :
  sentence_loop text start_pos (String.length text - start_pos) = None ->
  none_from (sentence_end_at text) start_pos.
Proof.
  intros H k Hk.
  destruct (Nat.lt_ge_cases k (String.length text)) as [Hlt|Hge].
  - apply (sentence_loop_none _ _ _ H). lia.
  - intros [c [Hc _]]. apply get_none_iff in Hge. congruence.
Qed.

Lemma find_some (text : string) (start_pos p : nat) :
  String.index start_pos para_break text = Some p ->
  first_from (para_break_at text) start_pos p.
Proof.
  intros H. repeat split.
  - exact (index_ge _ _ _ _ H).
  - apply substring_para_break. exact (index_correct1 _ _ _ _ H).
  - apply substring_para_break. exact (index_correct1 _ _ _ _ H).
  - intros k Hk Hb. apply substring_para_break in Hb.
    exact (index_correct2 _ _ _ _ H k (proj1 Hk) (proj2 Hk) Hb).
Qed.

Lemma find_none (text : string) (start_pos : nat) :
  String.index start_pos para_break text = None ->
  none_from (para_break_at text) start_pos.
Proof.
  intros H k Hk Hb. apply substring_para_break in Hb.
  refine (index_correct3 _ k _ _ H _ Hk Hb). discriminate.
Qed.

(** C6, as amended. [find_sentence_boundary] returns the offset just past
    the first sentence end at or after [start_pos]; failing that, the
    offset of the first paragraph break at or after [start_pos] when that
    offset is positive; and [-1] when there is neither, or when the first
    paragraph break sits at offset 0. *)
Theorem find_sentence_boundary_found (text : string) (start_pos : nat) :
  boundary_found text start_pos (find_sentence_boundary text start_pos).
Proof.
  unfold find_sentence_boundary, Py.find.
  destruct (sentence_loop text start_pos (String.length text - start_pos))
    as [r|] eqn:El.
  - apply sentence_loop_some in El. destruct El as [k [-> [_ Hk]]].
    replace (Z.of_nat (S k)) with (Z.of_nat k + 1) by lia.
    apply FoundSentence. exact Hk.
  - apply sentence_loop_none_from in El.
    destruct (String.index start_pos para_break text) as [p|] eqn:Ei.
    + apply find_some in Ei. destruct (0 <? Z.of_nat p) eqn:Ep.
      * apply FoundParagraph; try assumption. apply Z.ltb_lt in Ep. lia.
      * apply Z.ltb_ge in Ep. assert (p = 0%nat) as -> by lia.
        apply FoundNothing; [assumption | right; assumption].
    + apply find_none in Ei. simpl.
      apply FoundNothing; [assumption | left; assumption].
Qed.

(** C6, counterexample. On the text ['\n\nab'] searched from offset 0 there
    is no sentence end and the first paragraph break is at offset 0; the
    finder answers [-1], not the described offset 0. *)
Lemma find_sentence_boundary_break_at_zero :
  find_sentence_boundary (String LF (String LF "ab")) 0 = -1 /\
  boundary_described (String LF (String LF "ab")) 0 0 /\
  ~ boundary_described (String LF (String LF "ab")) 0
      (find_sentence_boundary (String LF (String LF "ab")) 0).
Proof.
  assert (Hb : para_break_at (String LF (String LF "ab")) 0)
    by (split; reflexivity).
  assert (Hs : none_from (sentence_end_at (String LF (String LF "ab"))) 0).
  { intros k _ [c [Hc [Hp _]]].
    destruct k as [|[|[|[|k]]]]; simpl in Hc; try discriminate;
      injection Hc as <-; destruct Hp as [Hp|[Hp|Hp]]; discriminate. }
  split; [reflexivity|]. split.
  - apply (DescribedParagraph _ _ 0%nat); [exact Hs|].
    repeat split; try lia; apply Hb.
  - change (find_sentence_boundary (String LF (String LF "ab")) 0) with (-1).
    intros H. inversion H as [i Hi Heq | j _ Hj Heq | _ Hn]; try lia.
    exact (Hn 0%nat (Nat.le_refl 0) Hb).
Qed.

(** ** Renumbering *)

Lemma sequential_snoc (chunks : list ChunkRecord) (c : ChunkRecord) :
  sequential chunks ->
  Chunk.chunk_index c = Py.llen chunks ->
  sequential (chunks ++ [c]).
Proof.
  unfold sequential, Py.llen. intros Hs Hc.
  rewrite map_app, length_app, Hs. simpl.
  rewrite Nat.add_1_r, seq_S, map_app. simpl. rewrite Hc. reflexivity.
Qed.

Lemma renumber_numbered (st : DocState) (chunk : ChunkRecord) :
  numbered st -> numbered (renumber st chunk).
Proof.
  intros [Hs Hn]. unfold numbered, renumber. simpl. split.
  - apply sequential_snoc; [exact Hs | simpl; exact Hn].
  - unfold Py.llen in *. rewrite length_app. simpl. lia.
Qed.

Lemma fold_renumber_numbered (section_chunks : list ChunkRecord) (st : DocState) :
  numbered st -> numbered (fold_left renumber section_chunks st).
Proof.
  revert st. induction section_chunks as [|c cs IH]; intros st H; simpl.
  - exact H.
  - apply IH, renumber_numbered, H.
Qed.

Lemma sections_loop_numbered (doc : ParsedDocument) (encoding : Encoding)
    (sections : list Section) (st st' : DocState) :
  numbered st ->
  Single.sections_loop doc encoding sections st = Returns st' ->
  numbered st'.
Proof.
  revert st. induction sections as [|s rest IH]; intros st Hst; simpl.
  - intros [= <-]. exact Hst.
  - destruct (Single.chunk_section doc s encoding) as [cs|e|]; simpl;
      try discriminate.
    apply IH, fold_renumber_numbered, Hst.
Qed.

Lemma enumerate_numbered (doc : ParsedDocument) (texts : list string) (i : nat) :
  map Chunk.chunk_index
    (map (fun it => Single.create_chunk_dict doc (snd it) (fst it) None None)
         (Py.enumerate_from (Z.of_nat i) texts))
  = map Z.of_nat (seq i (List.length texts)).
Proof.
  revert i. induction texts as [|t texts IH]; intros i; simpl.
  - reflexivity.
  - f_equal. replace (Z.of_nat i + 1) with (Z.of_nat (S i)) by lia. apply IH.
Qed.

(** C4. Whenever [chunk_document] returns N records, their [chunk_index]
    fields are, in order, exactly 0, 1, ..., N-1, across all sections (and
    in the full-text fallback alike). *)
Theorem chunk_index_sequential (fuel : nat) (doc : ParsedDocument)
    (encoding : Encoding) (chunks : list ChunkRecord) :
  Single.chunk_document fuel doc encoding = Returns chunks ->
  map Chunk.chunk_index chunks = map Z.of_nat (seq 0 (List.length chunks)).
Proof.
  unfold Single.chunk_document.
  destruct (Doc.sections doc) as [|s rest] eqn:Es.
  - destruct (Doc.full_text doc) as [|c t] eqn:Et.
    + intros [= <-]. reflexivity.
    + destruct (Single.chunk_text _ _ _ _ _ _) as [texts|e|]; simpl;
        try discriminate.
      intros [= <-]. rewrite length_map.
      replace (List.length (Py.enumerate texts)) with (List.length texts).
      * apply (enumerate_numbered doc texts 0).
      * unfold Py.enumerate. generalize 0.
        induction texts; intros; simpl; [reflexivity | f_equal; auto].
  - destruct (Single.sections_loop doc encoding (s :: rest) ([], 0))
      as [st|e|] eqn:El; simpl; try discriminate.
    intros [= <-].
    apply (sections_loop_numbered doc encoding (s :: rest) ([], 0) st).
    + split; reflexivity.
    + exact El.
Qed.

Lemma chunk_index_sequential_witness :
  Single.chunk_document 0 (sample_doc [sec_scope; sec_penalties] "") char_encoding
  = Returns
      [Chunk.set_chunk_index
         (Single.create_chunk_dict (sample_doc [sec_scope; sec_penalties] "")
            (Single.section_text sec_scope) 0 (Some "1") (Some "Scope")) 0;
       Chunk.set_chunk_index
         (Single.create_chunk_dict (sample_doc [sec_scope; sec_penalties] "")
            (Single.section_text sec_penalties) 0 (Some "2") (Some "Penalties")) 1]
  /\ map Chunk.chunk_index
       [Chunk.set_chunk_index
         (Single.create_chunk_dict (sample_doc [sec_scope; sec_penalties] "")
            (Single.section_text sec_scope) 0 (Some "1") (Some "Scope")) 0;
       Chunk.set_chunk_index
         (Single.create_chunk_dict (sample_doc [sec_scope; sec_penalties] "")
            (Single.section_text sec_penalties) 0 (Some "2") (Some "Penalties")) 1]
     = [0; 1].
Proof.
  split; [vm_compute; reflexivity|].
  apply (chunk_index_sequential 0
           (sample_doc [sec_scope; sec_penalties] "") char_encoding).
  vm_compute. reflexivity.
Defined.

(** ** The empty document *)

(** C9. A document with no sections and an empty [full_text] is chunked to
    the empty list: [chunk_document] returns, raising nothing, whatever the
    tokenizer and with no fuel at all. *)
Theorem empty_document_no_chunks (fuel : nat) (doc : ParsedDocument)
    (encoding : Encoding) :
  Doc.sections doc = [] ->
  Doc.full_text doc = "" ->
  Single.chunk_document fuel doc encoding = Returns [].
Proof.
  intros Hs Ht. unfold Single.chunk_document. rewrite Hs, Ht. reflexivity.
Qed.

Lemma empty_document_no_chunks_witness :
  Doc.sections (sample_doc [] "") = [] /\
  Doc.full_text (sample_doc [] "") = "" /\
  Single.chunk_document 0 (sample_doc [] "") char_encoding = Returns [].
Proof.
  split; [reflexivity|]. split; [reflexivity|].
  apply (empty_document_no_chunks 0 (sample_doc [] "") char_encoding);
    reflexivity.
Defined.

(** ** Determinism *)

(** Once the loop of [chunk_text] has come to an end with some fuel, any
    other amount of fuel that lets it end gives the same chunks. *)
Lemma chunk_text_loop_fuel (encoding : Encoding) (tokens : list Z)
    (min_size max_size overlap : Z) (fuel1 fuel2 : nat) (start : Z)
    (chunks : list string) :
  Single.chunk_text_loop fuel1 encoding tokens min_size max_size overlap
    start chunks <> OutOfFuel ->
  Single.chunk_text_loop fuel2 encoding tokens min_size max_size overlap
    start chunks <> OutOfFuel ->
  Single.chunk_text_loop fuel1 encoding tokens min_size max_size overlap
    start chunks
  = Single.chunk_text_loop fuel2 encoding tokens min_size max_size overlap
      start chunks.
Proof.
  revert fuel2 start chunks.
  induction fuel1 as [|fuel1 IH]; intros fuel2 start chunks;
    destruct fuel2 as [|fuel2]; simpl;
    destruct (start <? Py.llen tokens); try congruence.
  destruct (Single.chunk_text_iter encoding tokens min_size max_size overlap
              start) as [ct start'].
  apply IH.
Qed.

(** The fuel does not show in the outcome of [chunk_document]: two runs
    on the same document with the same tokenizer that both come to an end
    (a return or a raise) end alike, whatever fuel each was given. *)
Theorem chunk_document_deterministic (fuel1 fuel2 : nat)
    (doc : ParsedDocument) (encoding : Encoding) :
  Single.chunk_document fuel1 doc encoding <> OutOfFuel ->
  Single.chunk_document fuel2 doc encoding <> OutOfFuel ->
  Single.chunk_document fuel1 doc encoding
  = Single.chunk_document fuel2 doc encoding.
Proof.
  unfold Single.chunk_document.
  destruct (Doc.sections doc) as [|s rest]; [|reflexivity].
  destruct (Doc.full_text doc) as [|c t]; [reflexivity|].
  unfold Single.chunk_text.
  destruct (Py.llen (encode encoding (String c t)) <=? Single.MAX_CHUNK_SIZE);
    [reflexivity|].
  intros H1 H2.
  rewrite (chunk_text_loop_fuel encoding (encode encoding (String c t))
             Single.MIN_CHUNK_SIZE Single.MAX_CHUNK_SIZE Single.OVERLAP_SIZE
             fuel1 fuel2 0 []).
  - reflexivity.
  - intros E. apply H1. rewrite E. reflexivity.
  - intros E. apply H2. rewrite E. reflexivity.
Qed.

Lemma chunk_document_deterministic_witness :
  Single.chunk_document 3 (sample_doc [] (repeat_char "a" 1001)) char_encoding
    <> OutOfFuel /\
  Single.chunk_document 7 (sample_doc [] (repeat_char "a" 1001)) char_encoding
    <> OutOfFuel /\
  Single.chunk_document 3 (sample_doc [] (repeat_char "a" 1001)) char_encoding
  = Single.chunk_document 7 (sample_doc [] (repeat_char "a" 1001)) char_encoding.
Proof.
  split; [vm_compute; discriminate|]. split; [vm_compute; discriminate|].
  apply (chunk_document_deterministic 3 7
           (sample_doc [] (repeat_char "a" 1001)) char_encoding);
    vm_compute; discriminate.
Defined.

(** ** The two chunkers agree *)

Lemma staged_chunk_text_loop (fuel : nat) (encoding : Encoding)
    (tokens : list Z) (start : Z) (chunks : list string) :
  Single.chunk_text_loop fuel encoding tokens Single.MIN_CHUNK_SIZE
    Single.MAX_CHUNK_SIZE Single.OVERLAP_SIZE start chunks
  = Staged.chunk_text_loop Staged.default_config fuel encoding tokens
      start chunks.
Proof.
  revert start chunks. induction fuel as [|fuel IH]; intros start chunks;
    simpl; [reflexivity|].
  destruct (start <? Py.llen tokens); [|reflexivity].
  change (Staged.chunk_text_iter Staged.default_config encoding tokens start)
    with (Single.chunk_text_iter encoding tokens Single.MIN_CHUNK_SIZE
            Single.MAX_CHUNK_SIZE Single.OVERLAP_SIZE start).
  destruct (Single.chunk_text_iter _ _ _ _ _ _) as [ct start']. apply IH.
Qed.

Lemma staged_sections_loop (doc : ParsedDocument) (encoding : Encoding)
    (sections : list Section) (st : DocState) :
  Single.sections_loop doc encoding sections st
  = Staged.sections_loop Staged.default_config doc encoding sections st.
Proof.
  revert st. induction sections as [|s rest IH]; intros st; simpl;
    [reflexivity|].
  change (Staged.chunk_section Staged.default_config doc s encoding)
    with (Single.chunk_section doc s encoding).
  destruct (Single.chunk_section doc s encoding); simpl;
    [apply IH | reflexivity | reflexivity].
Qed.

(** C8. With the stage's sizes at their defaults (800, 1000, 100) and the
    same tokenizer, [chunk_document] of [src/chunk.py] and [chunk_document]
    of [src-multi/stage3_chunk.py] have the same outcome on every parsed
    document: the same records when they return, the same exception when
    they raise, and they run out of the same fuel. *)
Theorem single_and_staged_agree (fuel : nat) (doc : ParsedDocument)
    (encoding : Encoding) :
  Single.chunk_document fuel doc encoding
  = Staged.chunk_document Staged.default_config fuel doc encoding.
Proof.
  unfold Single.chunk_document, Staged.chunk_document.
  destruct (Doc.sections doc) as [|s rest].
  - destruct (Doc.full_text doc) as [|c t]; [reflexivity|].
    unfold Single.chunk_text, Staged.chunk_text.
    change (Staged.MAX_CHUNK_SIZE Staged.default_config)
      with Single.MAX_CHUNK_SIZE.
    destruct (Py.llen (encode encoding (String c t)) <=? Single.MAX_CHUNK_SIZE);
      [reflexivity|].
    rewrite staged_chunk_text_loop. reflexivity.
  - rewrite staged_sections_loop. reflexivity.
Qed.

(** ** Sections that fit the budget *)

Lemma chunk_section_fits (doc : ParsedDocument) (s : Section)
    (encoding : Encoding) :
  Py.llen (encode encoding (Single.section_text s)) <= Single.MAX_CHUNK_SIZE ->
  Single.chunk_section doc s encoding
  = Returns [Single.create_chunk_dict doc (Single.section_text s) 0
               (number s) (heading s)].
Proof.
  intros H. unfold Single.chunk_section.
  apply Z.leb_le in H. rewrite H. reflexivity.
Qed.

Lemma chunk_section_returns (doc : ParsedDocument) (s : Section)
    (encoding : Encoding) (cs : list ChunkRecord) :
  Single.chunk_section doc s encoding = Returns cs ->
  Py.llen (encode encoding (Single.section_text s)) <= Single.MAX_CHUNK_SIZE /\
  cs = [Single.create_chunk_dict doc (Single.section_text s) 0
          (number s) (heading s)].
Proof.
  unfold Single.chunk_section.
  destruct (Py.llen (encode encoding (Single.section_text s))
            <=? Single.MAX_CHUNK_SIZE) eqn:E; [|discriminate].
  intros [= <-]. apply Z.leb_le in E. split; [exact E | reflexivity].
Qed.

(** A section over the budget never reaches the splitter: the call raises. *)
Lemma chunk_section_oversized (doc : ParsedDocument) (s : Section)
    (encoding : Encoding) :
  Single.MAX_CHUNK_SIZE < Py.llen (encode encoding (Single.section_text s)) ->
  Single.chunk_section doc s encoding = Raises (UnboundLocalError "chunk_text").
Proof.
  intros H. unfold Single.chunk_section.
  apply Z.leb_gt in H. rewrite H. reflexivity.
Qed.

Lemma append_same_prefix (s a b : string) :
  (s ++ a)%string = (s ++ b)%string -> a = b.
Proof.
  induction s as [|c s IH]; simpl; intros H; [exact H|].
  injection H as H. exact (IH H).
Qed.

(** C1, at the failing input. For a document with two sections that each
    fit the budget, [chunk_document] returns two records numbered 0 and 1
    that carry the same [id], [{document_id}_chunk_0]: the second record's
    id is not the one its [chunk_index] spells, and ids are not unique. *)
Theorem section_ids_collide (fuel : nat) (doc : ParsedDocument)
    (encoding : Encoding) (s1 s2 : Section) :
  Doc.sections doc = [s1; s2] ->
  Py.llen (encode encoding (Single.section_text s1)) <= Single.MAX_CHUNK_SIZE ->
  Py.llen (encode encoding (Single.section_text s2)) <= Single.MAX_CHUNK_SIZE ->
  exists c1 c2,
    Single.chunk_document fuel doc encoding = Returns [c1; c2] /\
    Chunk.chunk_index c1 = 0 /\
    Chunk.chunk_index c2 = 1 /\
    Chunk.id c1 = Chunk.id c2 /\
    Chunk.id c2 = (Doc.document_id doc ++ "_chunk_0")%string /\
    Chunk.id c2 <>
      (Doc.document_id doc ++ "_chunk_"
         ++ Py.str_of_int (Chunk.chunk_index c2))%string.
Proof.
  intros Hs H1 H2. unfold Single.chunk_document. rewrite Hs. simpl.
  rewrite (chunk_section_fits doc s1 encoding H1). simpl.
  rewrite (chunk_section_fits doc s2 encoding H2). simpl.
  eexists. eexists. split; [reflexivity|]. simpl.
  repeat split.
  intros H. apply append_same_prefix in H. discriminate.
Qed.

Lemma section_ids_collide_witness :
  Doc.sections (sample_doc [sec_scope; sec_penalties] "")
    = [sec_scope; sec_penalties] /\
  exists c1 c2,
    Single.chunk_document 0 (sample_doc [sec_scope; sec_penalties] "")
      char_encoding = Returns [c1; c2] /\
    Chunk.chunk_index c1 = 0 /\
    Chunk.chunk_index c2 = 1 /\
    Chunk.id c1 = Chunk.id c2 /\
    Chunk.id c2 = "2024-1234_chunk_0" /\
    Chunk.id c2 <>
      ("2024-1234" ++ "_chunk_" ++ Py.str_of_int (Chunk.chunk_index c2))%string.
Proof.
  split; [reflexivity|].
  apply (section_ids_collide 0 (sample_doc [sec_scope; sec_penalties] "")
           char_encoding sec_scope sec_penalties);
    [reflexivity | vm_compute; discriminate | vm_compute; discriminate].
Defined.

(** ** Sections without paragraphs *)








(** C3, at the failing input. A section with no heading (or an empty one)
    and no paragraph renders to the empty text; when the tokenizer counts
    at most 1000 tokens there, [chunk_document] returns a record for it,
    and the record's content is empty. *)
Theorem blank_section_empty_content (fuel : nat) (doc : ParsedDocument)
    (encoding : Encoding) (s : Section) :
  Doc.sections doc = [s] ->
  paragraphs s = [] ->
  heading s = None \/ heading s = Some "" ->
  Py.llen (encode encoding "") <= Single.MAX_CHUNK_SIZE ->
  exists c,
    Single.chunk_document fuel doc encoding = Returns [c] /\
    Chunk.content c = "".
Proof.
  intros Hs Hp Hh Hfit.
  assert (Ht : Single.section_text s = "").
  { unfold Single.section_text. rewrite Hp.
    destruct Hh as [-> | ->]; reflexivity. }
  unfold Single.chunk_document. rewrite Hs. simpl.
  rewrite chunk_section_fits; rewrite Ht; [|exact Hfit]. simpl.
  eexists. split; reflexivity.
Qed.

Lemma blank_section_empty_content_witness :
  Doc.sections (sample_doc [sec_blank] "") = [sec_blank] /\
  paragraphs sec_blank = [] /\
  exists c,
    Single.chunk_document 0 (sample_doc [sec_blank] "") char_encoding
      = Returns [c] /\
    Chunk.content c = "".
Proof.
  split; [reflexivity|]. split; [reflexivity|].
  apply (blank_section_empty_content 0 (sample_doc [sec_blank] "")
           char_encoding sec_blank);
    [reflexivity | reflexivity | left; reflexivity | vm_compute; discriminate].
Defined.

(** The budget half of the invariant holds on the section path: a record
    is only built for a section whose text the tokenizer counts within
    the budget. *)
Lemma section_records_within_budget (fuel : nat) (doc : ParsedDocument)
    (encoding : Encoding) (chunks : list ChunkRecord) :
  Doc.sections doc <> [] ->
  Single.chunk_document fuel doc encoding = Returns chunks ->
  Forall (fun c => Py.llen (encode encoding (Chunk.content c))
                   <= Single.MAX_CHUNK_SIZE) chunks.
Proof.
  intros Hne. unfold Single.chunk_document.
  destruct (Doc.sections doc) as [|x rest]; [congruence|].
  generalize (x :: rest). intros sections.
  assert (H : forall st st',
    Forall (fun c => Py.llen (encode encoding (Chunk.content c))
                     <= Single.MAX_CHUNK_SIZE) (fst st) ->
    Single.sections_loop doc encoding sections st = Returns st' ->
    Forall (fun c => Py.llen (encode encoding (Chunk.content c))
                     <= Single.MAX_CHUNK_SIZE) (fst st')).
  { induction sections as [|s ss IH]; intros st st' Hst; simpl.
    - intros [= <-]. exact Hst.
    - destruct (Single.chunk_section doc s encoding) as [cs|e|] eqn:Es;
        simpl; try discriminate.
      apply chunk_section_returns in Es. destruct Es as [Hfit ->]. simpl.
      apply IH. unfold renumber. simpl. apply Forall_app. split; [exact Hst|].
      constructor; [exact Hfit | constructor]. }
  destruct (Single.sections_loop doc encoding sections ([], 0))
    as [st|e|] eqn:El; simpl; try discriminate.
  intros [= <-]. apply (H ([], 0) st); [constructor | exact El].
Qed.

(** ** The cursor of the token-budget splitter *)

(** One iteration, read through [snap]: the chunk is the snapped text when
    there is one and the decoded slice otherwise, and the cursor moves to
    the chunk's end, less the overlap when tokens remain after it. *)
Lemma chunk_text_iter_snap (encoding : Encoding) (tokens : list Z)
    (min_size max_size overlap start : Z) :
  Single.chunk_text_iter encoding tokens min_size max_size overlap start
  = match snap encoding tokens min_size max_size start with
    | Some ct =>
        let end_ := start + Py.llen (encode encoding ct) in
        (ct, if end_ <? Py.llen tokens then end_ - overlap else end_)
    | None =>
        let end_ := Z.min (start + max_size) (Py.llen tokens) in
        (decode encoding (Py.slice tokens start end_),
         if end_ <? Py.llen tokens then end_ - overlap else end_)
    end.
Proof.
  unfold Single.chunk_text_iter, snap.
  destruct ((Z.min (start + max_size) (Py.llen tokens) <? Py.llen tokens)
            && (min_size <=? Py.llen (Py.slice tokens start
                  (Z.min (start + max_size) (Py.llen tokens))))); [|reflexivity].
  destruct (0 <? find_sentence_boundary _ _); reflexivity.
Qed.

Section Progress.

Variable encoding : Encoding.
Variable tokens : list Z.
Variables min_size max_size overlap : Z.

Hypothesis overlap_below_max : 0 <= overlap < max_size.

(** Every snapped chunk re-encodes to more tokens than the overlap. *)
Hypothesis snapped_exceeds_overlap :
  forall start ct,
    0 <= start < Py.llen tokens ->
    snap encoding tokens min_size max_size start = Some ct ->
    overlap < Py.llen (encode encoding ct).

Lemma cursor_moves (start : Z) :
  0 <= start < Py.llen tokens ->
  let start' :=
    snd (Single.chunk_text_iter encoding tokens min_size max_size overlap
           start) in
  start < start' \/ Py.llen tokens <= start'.
Proof.
  intros Hs. rewrite chunk_text_iter_snap.
  destruct (snap encoding tokens min_size max_size start) as [ct|] eqn:E;
    simpl.
  - pose proof (snapped_exceeds_overlap start ct Hs E) as Hp.
    destruct (start + Py.llen (encode encoding ct) <? Py.llen tokens) eqn:El;
      [left; lia | right; apply Z.ltb_ge in El; exact El].
  - destruct (Z.min (start + max_size) (Py.llen tokens) <? Py.llen tokens)
      eqn:El.
    + apply Z.ltb_lt in El. left. lia.
    + apply Z.ltb_ge in El. right. exact El.
Qed.

Lemma chunk_text_loop_returns (fuel : nat) (start : Z)
    (chunks : list string) :
  0 <= start ->
  Py.llen tokens - start <= Z.of_nat fuel ->
  exists r,
    Single.chunk_text_loop fuel encoding tokens min_size max_size overlap
      start chunks = Returns r.
Proof.
  revert start chunks. induction fuel as [|fuel IH]; intros start chunks
    H0 Hf; simpl; destruct (start <? Py.llen tokens) eqn:Es;
    try (eexists; reflexivity).
  - apply Z.ltb_lt in Es. lia.
  - apply Z.ltb_lt in Es.
    pose proof (cursor_moves start (conj H0 Es)) as Hm. simpl in Hm.
    destruct (Single.chunk_text_iter encoding tokens min_size max_size
                overlap start) as [ct start']. simpl in Hm.
    apply IH; lia.
Qed.

End Progress.

Lemma chunk_text_stalls (fuel : nat) (chunks : list string) :
  Single.chunk_text_loop fuel char_encoding (encode char_encoding short_text)
    8 10 9 0 chunks = OutOfFuel.
Proof.
  revert chunks. induction fuel as [|fuel IH]; intros chunks; [reflexivity|].
  change (Single.chunk_text_loop (S fuel) char_encoding
            (encode char_encoding short_text) 8 10 9 0 chunks)
    with (let '(ct, start') :=
            Single.chunk_text_iter char_encoding
              (encode char_encoding short_text) 8 10 9 0 in
          Single.chunk_text_loop fuel char_encoding
            (encode char_encoding short_text) 8 10 9 start'
            (chunks ++ [ct])%list).
  replace (Single.chunk_text_iter char_encoding
             (encode char_encoding short_text) 8 10 9 0)
    with ("aaaaaaaa.", 0) by (vm_compute; reflexivity).
  apply IH.
Qed.

(** Termination under progress. With [0 <= overlap < max_size],
    [chunk_text] returns (within one loop iteration per token of the text)
    whenever every boundary-snapped chunk re-encodes to more than [overlap]
    tokens, in particular when snapping never finds a boundary. In an
    iteration that is not snapped and leaves tokens after the chunk, the
    cursor advances by exactly [max_size - overlap]; in a snapped one it
    advances by the token length of the snapped chunk less [overlap]. *)
Theorem chunk_text_terminates (encoding : Encoding) (text : string)
    (min_size max_size overlap : Z) :
  0 <= overlap < max_size ->
  (forall start ct,
     0 <= start < Py.llen (encode encoding text) ->
     snap encoding (encode encoding text) min_size max_size start = Some ct ->
     overlap < Py.llen (encode encoding ct)) ->
  (exists chunks,
     Single.chunk_text (List.length (encode encoding text)) text encoding
       min_size max_size overlap = Returns chunks) /\
  (forall start,
     start + max_size < Py.llen (encode encoding text) ->
     snap encoding (encode encoding text) min_size max_size start = None ->
     snd (Single.chunk_text_iter encoding (encode encoding text)
            min_size max_size overlap start)
     = start + (max_size - overlap)) /\
  (forall start ct,
     snap encoding (encode encoding text) min_size max_size start = Some ct ->
     start + Py.llen (encode encoding ct) < Py.llen (encode encoding text) ->
     snd (Single.chunk_text_iter encoding (encode encoding text)
            min_size max_size overlap start)
     = start + (Py.llen (encode encoding ct) - overlap)).
Proof.
  intros Ho Hp. split; [|split].
  - unfold Single.chunk_text.
    destruct (Py.llen (encode encoding text) <=? max_size);
      [eexists; reflexivity|].
    apply (chunk_text_loop_returns encoding (encode encoding text)
             min_size max_size overlap Ho Hp); unfold Py.llen; lia.
  - intros start Hlt Hn. rewrite chunk_text_iter_snap, Hn. simpl.
    replace (Z.min (start + max_size) (Py.llen (encode encoding text)))
      with (start + max_size) by lia.
    apply Z.ltb_lt in Hlt. rewrite Hlt. lia.
  - intros start ct Hs Hlt. rewrite chunk_text_iter_snap, Hs. simpl.
    apply Z.ltb_lt in Hlt. rewrite Hlt. lia.
Qed.

Lemma chunk_text_terminates_witness :
  0 <= 2 < 10 /\
  exists chunks,
    Single.chunk_text (List.length (encode char_encoding short_text))
      short_text char_encoding 8 10 2 = Returns chunks.
Proof.
  split; [lia|].
  apply (chunk_text_terminates char_encoding short_text 8 10 2); [lia|].
  intros start ct Hs.
  assert (Hc : In start [0; 1; 2; 3; 4; 5; 6; 7; 8; 9; 10; 11; 12; 13; 14])
    by (change (Py.llen (encode char_encoding short_text)) with 15 in Hs;
        simpl; lia).
  simpl in Hc.
  repeat (destruct Hc as [<-|Hc];
          [intros E; vm_compute in E;
           first [discriminate E
                 | injection E as <-; vm_compute; reflexivity] |]).
  destruct Hc.
Defined.

(** The same text under two overlaps. One token per character, sizes
    8/10 and the text [aaaaaaaa. bbbbb] (15 tokens). With overlap 2 the
    first iteration snaps to the sentence end and moves the cursor from 0
    to 7, short of [max_size - overlap = 8]. With overlap 9 (still below
    [max_size]) the same iteration leaves the cursor at 0, and
    [chunk_text] does not return, whatever the fuel. *)
Lemma chunk_text_cursor_falls_short :
  0 < 2 < 10 /\ 0 < 9 < 10 /\
  Single.chunk_text_iter char_encoding (encode char_encoding short_text)
    8 10 2 0 = ("aaaaaaaa.", 7) /\
  7 - 0 < 10 - 2 /\
  Single.chunk_text_iter char_encoding (encode char_encoding short_text)
    8 10 9 0 = ("aaaaaaaa.", 0) /\
  forall fuel,
    Single.chunk_text fuel short_text char_encoding 8 10 9 = OutOfFuel.
Proof.
  repeat split; try lia; try (vm_compute; reflexivity).
  intros fuel. unfold Single.chunk_text.
  replace (Py.llen (encode char_encoding short_text) <=? 10) with false
    by (vm_compute; reflexivity).
  apply chunk_text_stalls.
Qed.

(** An iteration that leaves the cursor where it found it is repeated for
    ever: from such a cursor the loop never comes to its end. *)
Lemma chunk_text_loop_stuck (encoding : Encoding) (tokens : list Z)
    (min_size max_size overlap start : Z) :
  start < Py.llen tokens ->
  snd (Single.chunk_text_iter encoding tokens min_size max_size overlap start)
    = start ->
  forall fuel chunks,
    Single.chunk_text_loop fuel encoding tokens min_size max_size overlap
      start chunks = OutOfFuel.
Proof.
  intros Hlt Hsame fuel. apply Z.ltb_lt in Hlt.
  induction fuel as [|fuel IH]; intros chunks; simpl; rewrite Hlt;
    [reflexivity|].
  destruct (Single.chunk_text_iter encoding tokens min_size max_size overlap
              start) as [ct start'].
  simpl in Hsame. subst start'. apply IH.
Qed.

(** C5, at the failing input. One token per character, [min_size = 8],
    [max_size = 10], [overlap = 9] (all positive, the overlap below the
    maximum) and the text [aaaaaaaa. bbbbb] of 15 tokens. The first
    iteration takes the slice of 10 tokens and cuts it back to the
    sentence end, 9 tokens; tokens remain, so the next cursor is
    [9 - 9 = 0], the cursor the iteration started from. The cursor has
    not moved forward, the loop repeats that iteration for ever, and
    [chunk_text] does not return, whatever fuel it is given. *)
Theorem chunk_text_never_returns :
  0 < 8 /\ 0 < 9 < 10 /\
  Py.llen (encode char_encoding short_text) = 15 /\
  Single.chunk_text_iter char_encoding (encode char_encoding short_text)
    8 10 9 0 = ("aaaaaaaa.", 0) /\
  forall fuel,
    Single.chunk_text fuel short_text char_encoding 8 10 9 = OutOfFuel.
Proof.
  split; [lia|]. split; [lia|]. split; [reflexivity|].
  split; [vm_compute; reflexivity|].
  intros fuel. unfold Single.chunk_text.
  replace (Py.llen (encode char_encoding short_text) <=? 10) with false
    by (vm_compute; reflexivity).
  apply chunk_text_loop_stuck; vm_compute; reflexivity.
Qed.

(** ** Chunks below the minimum size *)

Lemma last_chunk_as_is (encoding : Encoding) (tokens : list Z)
    (min_size max_size overlap start : Z) :
  Py.llen tokens <= start + max_size ->
  Single.chunk_text_iter encoding tokens min_size max_size overlap start
  = (decode encoding (Py.slice tokens start (Py.llen tokens)), Py.llen tokens).
Proof.
  intros H. unfold Single.chunk_text_iter.
  replace (Z.min (start + max_size) (Py.llen tokens)) with (Py.llen tokens)
    by lia.
  rewrite Z.ltb_irrefl. cbn [andb]. rewrite Z.ltb_irrefl. reflexivity.
Qed.

(** C10. [min_size] is no lower bound on the size of a chunk. It is read
    only in the guard of boundary snapping: the iteration that reaches the
    end of the tokens emits what is left, whatever [min_size] is. With the
    default sizes (800, 1000, 100) and one token per character, a text of
    1001 tokens is split into a chunk of 1000 tokens and a final chunk of
    101 tokens, fewer than the minimum of 800. *)
Theorem min_size_not_a_lower_bound :
  (forall encoding tokens min_size max_size overlap start,
     Py.llen tokens <= start + max_size ->
     Single.chunk_text_iter encoding tokens min_size max_size overlap start
     = (decode encoding (Py.slice tokens start (Py.llen tokens)),
        Py.llen tokens)) /\
  exists text chunks,
    Single.MAX_CHUNK_SIZE < Py.llen (encode char_encoding text) /\
    Single.chunk_text 2 text char_encoding Single.MIN_CHUNK_SIZE
      Single.MAX_CHUNK_SIZE Single.OVERLAP_SIZE = Returns chunks /\
    List.length chunks = 2%nat /\
    Py.llen (encode char_encoding (List.last chunks "")) = 101 /\
    Py.llen (encode char_encoding (List.last chunks ""))
      < Single.MIN_CHUNK_SIZE.
Proof.
  split; [exact last_chunk_as_is|].
  exists (repeat_char "a" 1001).
  exists [repeat_char "a" 1000; repeat_char "a" 101].
  repeat split; vm_compute; reflexivity.
Qed.

(** * Further properties of the chunking code *)

(** ** Where a boundary can lie *)

Lemma length_substring_0 (s : string) (n : nat) :
  String.length (substring 0 n s) = Nat.min n (String.length s).
Proof.
  revert n. induction s as [|c s IH]; intros [|n]; simpl; try reflexivity.
  rewrite IH. reflexivity.
Qed.

Lemma get_some_lt (s : string) (n : nat) (c : ascii) :
  get n s = Some c -> (n < String.length s)%nat.
Proof.
  intros H. destruct (Nat.lt_ge_cases n (String.length s)) as [Hlt|Hge];
    [exact Hlt|].
  apply get_none_iff in Hge. congruence.
Qed.

(** X1. The offset [find_sentence_boundary] returns is either [-1] or a
    positive offset inside the text, not before [start_pos]; it is never
    0. Cutting the text there ([text[:offset]]) keeps exactly that many
    characters, so the cut is never empty. *)
Theorem find_sentence_boundary_range (text : string) (start_pos : nat) :
  find_sentence_boundary text start_pos = -1 \/
  (0 < find_sentence_boundary text start_pos /\
   Z.of_nat start_pos <= find_sentence_boundary text start_pos
     <= Py.len text /\
   Py.len (Py.str_upto text (find_sentence_boundary text start_pos))
     = find_sentence_boundary text start_pos).
Proof.
  assert (Hin : forall r : nat,
            (0 < r)%nat -> (start_pos <= r)%nat ->
            (r <= String.length text)%nat ->
            0 < Z.of_nat r /\
            Z.of_nat start_pos <= Z.of_nat r <= Py.len text /\
            Py.len (Py.str_upto text (Z.of_nat r)) = Z.of_nat r).
  { intros r H0 H1 H2. unfold Py.len, Py.str_upto.
    rewrite Nat2Z.id, length_substring_0. lia. }
  unfold find_sentence_boundary, Py.find.
  destruct (sentence_loop text start_pos (String.length text - start_pos))
    as [r|] eqn:El.
  - right. apply sentence_loop_some in El.
    destruct El as [k [-> [Hlt [Hle _]]]]. apply Hin; lia.
  - destruct (String.index start_pos para_break text) as [p|] eqn:Ei;
      [|left; reflexivity].
    destruct (0 <? Z.of_nat p) eqn:Ep; [|left; reflexivity].
    right. apply Z.ltb_lt in Ep. apply find_some in Ei.
    destruct Ei as [Hle [[_ Hb] _]]. apply get_some_lt in Hb.
    apply Hin; lia.
Qed.

(** ** One record per section *)

Lemma fold_renumber_single (st : DocState) (c : ChunkRecord) :
  fold_left renumber [c] st
  = ((fst st ++ [Chunk.set_chunk_index c (snd st)])%list, snd st + 1).
Proof. reflexivity. Qed.

Lemma sections_loop_fit (doc : ParsedDocument) (encoding : Encoding)
    (sections : list Section) (st : DocState) :
  Forall (fun s => Py.llen (encode encoding (Single.section_text s))
                   <= Single.MAX_CHUNK_SIZE) sections ->
  exists added,
    Single.sections_loop doc encoding sections st
      = Returns ((fst st ++ added)%list, snd st + Py.llen added) /\
    map Chunk.content added = map Single.section_text sections /\
    map Chunk.section_number added = map number sections /\
    map Chunk.section_heading added = map heading sections.
Proof.
  revert st. induction sections as [|s rest IH]; intros st Hfit; simpl.
  - exists []. rewrite app_nil_r. unfold Py.llen. simpl.
    rewrite Z.add_0_r. destruct st. repeat split.
  - inversion Hfit as [|? ? Hs Hrest]; subst.
    rewrite (chunk_section_fits doc s encoding Hs). simpl.
    destruct (IH (renumber st
                    (Single.create_chunk_dict doc (Single.section_text s) 0
                       (number s) (heading s))) Hrest)
      as [added [Hl [Hc [Hn Hh]]]].
    exists (Chunk.set_chunk_index
              (Single.create_chunk_dict doc (Single.section_text s) 0
                 (number s) (heading s)) (snd st) :: added).
    rewrite Hl. unfold renumber. simpl. rewrite <- app_assoc. simpl.
    repeat split.
    + apply f_equal. apply f_equal2; [reflexivity|].
      unfold Py.llen. simpl List.length. lia.
    + f_equal. exact Hc.
    + f_equal. exact Hn.
    + f_equal. exact Hh.
Qed.

(** X2. When a document has sections and the text of every section is
    within the budget, [chunk_document] returns exactly one record per
    section, in section order: the record's content is the section's text
    and it carries the section's number and heading. *)
Theorem one_record_per_section (fuel : nat) (doc : ParsedDocument)
    (encoding : Encoding) :
  Doc.sections doc <> [] ->
  Forall (fun s => Py.llen (encode encoding (Single.section_text s))
                   <= Single.MAX_CHUNK_SIZE) (Doc.sections doc) ->
  exists chunks,
    Single.chunk_document fuel doc encoding = Returns chunks /\
    List.length chunks = List.length (Doc.sections doc) /\
    map Chunk.content chunks = map Single.section_text (Doc.sections doc) /\
    map Chunk.section_number chunks = map number (Doc.sections doc) /\
    map Chunk.section_heading chunks = map heading (Doc.sections doc).
Proof.
  intros Hne Hfit. unfold Single.chunk_document.
  destruct (Doc.sections doc) as [|x rest] eqn:Es; [congruence|].
  destruct (sections_loop_fit doc encoding (x :: rest) ([], 0) Hfit)
    as [added [Hl [Hc [Hn Hh]]]].
  rewrite Hl. simpl. exists added. repeat split; try assumption.
  rewrite <- (length_map Chunk.content), Hc, length_map. reflexivity.
Qed.

Lemma one_record_per_section_witness :
  Doc.sections (sample_doc [sec_scope; sec_penalties] "") <> [] /\
  exists chunks,
    Single.chunk_document 0 (sample_doc [sec_scope; sec_penalties] "")
      char_encoding = Returns chunks /\
    List.length chunks = 2%nat.
Proof.
  split; [discriminate|].
  destruct (one_record_per_section 0
              (sample_doc [sec_scope; sec_penalties] "") char_encoding)
    as [chunks [Hr [Hl _]]].
  - discriminate.
  - repeat constructor; vm_compute; discriminate.
  - exists chunks. split; [exact Hr | exact Hl].
Defined.

Lemma sections_loop_oversized (doc : ParsedDocument) (encoding : Encoding)
    (sections : list Section) (st : DocState) (s : Section) :
  In s sections ->
  Single.MAX_CHUNK_SIZE < Py.llen (encode encoding (Single.section_text s)) ->
  Single.sections_loop doc encoding sections st
  = Raises (UnboundLocalError "chunk_text").
Proof.
  revert st. induction sections as [|x rest IH]; intros st Hin Hbig;
    [destruct Hin|]. simpl.
  destruct (Z.le_gt_cases (Py.llen (encode encoding (Single.section_text x)))
              Single.MAX_CHUNK_SIZE) as [Hfit|Hover].
  - rewrite (chunk_section_fits doc x encoding Hfit). simpl.
    destruct Hin as [->|Hin]; [lia|]. apply IH; assumption.
  - rewrite (chunk_section_oversized doc x encoding Hover). reflexivity.
Qed.

(** X3. A single section over the budget makes the whole call fail: when
    any section of the document has a text of more than 1000 tokens,
    [chunk_document] raises [UnboundLocalError] and returns no record at
    all, not even for the sections that fit. *)
Theorem oversized_section_fails_document (fuel : nat) (doc : ParsedDocument)
    (encoding : Encoding) (s : Section) :
  In s (Doc.sections doc) ->
  Single.MAX_CHUNK_SIZE < Py.llen (encode encoding (Single.section_text s)) ->
  Single.chunk_document fuel doc encoding
  = Raises (UnboundLocalError "chunk_text").
Proof.
  intros Hin Hbig. unfold Single.chunk_document.
  destruct (Doc.sections doc) as [|x rest] eqn:Es; [destruct Hin|].
  rewrite (sections_loop_oversized doc encoding (x :: rest) ([], 0) s Hin Hbig).
  reflexivity.
Qed.

Lemma oversized_section_fails_document_witness :
  In sec_long (Doc.sections (sample_doc [sec_scope; sec_long] "")) /\
  Single.chunk_document 0 (sample_doc [sec_scope; sec_long] "") char_encoding
  = Raises (UnboundLocalError "chunk_text").
Proof.
  split; [right; left; reflexivity|].
  apply (oversized_section_fails_document 0
           (sample_doc [sec_scope; sec_long] "") char_encoding sec_long);
    [right; left; reflexivity | vm_compute; reflexivity].
Defined.

(** ** Metadata *)

Lemma create_chunk_dict_metadata (doc : ParsedDocument) (content : string)
    (i : Z) (n h : option string) :
  carries_metadata doc (Single.create_chunk_dict doc content i n h).
Proof. repeat split. Qed.

Lemma set_chunk_index_metadata (doc : ParsedDocument) (c : ChunkRecord)
    (i : Z) :
  carries_metadata doc c -> carries_metadata doc (Chunk.set_chunk_index c i).
Proof. intros H. exact H. Qed.

Lemma sections_loop_metadata (doc : ParsedDocument) (encoding : Encoding)
    (sections : list Section) (st st' : DocState) :
  Forall (carries_metadata doc) (fst st) ->
  Single.sections_loop doc encoding sections st = Returns st' ->
  Forall (carries_metadata doc) (fst st').
Proof.
  revert st. induction sections as [|s rest IH]; intros st Hst; simpl.
  - intros [= <-]. exact Hst.
  - destruct (Single.chunk_section doc s encoding) as [cs|e|] eqn:Es; simpl;
      try discriminate.
    apply chunk_section_returns in Es. destruct Es as [_ ->]. simpl.
    apply IH. unfold renumber. simpl. apply Forall_app. split; [exact Hst|].
    constructor; [|constructor].
    apply set_chunk_index_metadata, create_chunk_dict_metadata.
Qed.

(** X4. Every record [chunk_document] returns carries the document's own
    metadata: its [document_id], [title], dates, [year] and
    [last_modified], and as [document_type] what the document holds under
    that key ([None] when it holds [None]) or ['statute'] when the
    document has no such key. Renumbering leaves these fields alone. *)
Theorem records_carry_metadata (fuel : nat) (doc : ParsedDocument)
    (encoding : Encoding) (chunks : list ChunkRecord) :
  Single.chunk_document fuel doc encoding = Returns chunks ->
  Forall (carries_metadata doc) chunks.
Proof.
  unfold Single.chunk_document.
  destruct (Doc.sections doc) as [|s rest].
  - destruct (Doc.full_text doc) as [|c t].
    + intros [= <-]. constructor.
    + destruct (Single.chunk_text _ _ _ _ _ _) as [texts|e|]; simpl;
        try discriminate.
      intros [= <-]. apply Forall_map, Forall_forall.
      intros it _. apply create_chunk_dict_metadata.
  - destruct (Single.sections_loop doc encoding (s :: rest) ([], 0))
      as [st|e|] eqn:El; simpl; try discriminate.
    intros [= <-].
    apply (sections_loop_metadata doc encoding (s :: rest) ([], 0) st);
      [constructor | exact El].
Qed.

Lemma records_carry_metadata_witness :
  Single.chunk_document 0 typeless_doc char_encoding
  = Returns
      [Chunk.set_chunk_index
         (Single.create_chunk_dict typeless_doc
            (Single.section_text sec_scope) 0 (Some "1") (Some "Scope")) 0] /\
  Forall (carries_metadata typeless_doc)
    [Chunk.set_chunk_index
       (Single.create_chunk_dict typeless_doc
          (Single.section_text sec_scope) 0 (Some "1") (Some "Scope")) 0].
Proof.
  split; [vm_compute; reflexivity|].
  apply (records_carry_metadata 0 typeless_doc char_encoding).
  vm_compute. reflexivity.
Defined.

Example typeless_record_has_no_type :
  map Chunk.document_type
    [Chunk.set_chunk_index
       (Single.create_chunk_dict typeless_doc
          (Single.section_text sec_scope) 0 (Some "1") (Some "Scope")) 0]
  = [None] /\
  map Chunk.document_type sample_records = [Some "statute"; Some "statute"].
Proof. split; reflexivity. Qed.

(** ** The full-text fallback *)

Lemma str_of_int_inj (a b : Z) :
  Py.str_of_int a = Py.str_of_int b -> a = b.
Proof.
  unfold Py.str_of_int. intros H.
  assert (Hn : forall z, Z.to_int z <> Decimal.Pos Decimal.Nil /\
                         Z.to_int z <> Decimal.Neg Decimal.Nil).
  { intros [|p|p]; simpl; split; try discriminate;
      intros [= E]; exact (DecimalPos.Unsigned.to_uint_nonnil p E). }
  apply DecimalZ.to_int_inj.
  assert (E : Some (Z.to_int a) = Some (Z.to_int b)).
  { rewrite <- (NilZero.isi (Z.to_int a)) by apply Hn.
    rewrite <- (NilZero.isi (Z.to_int b)) by apply Hn.
    rewrite H. reflexivity. }
  injection E as E. exact E.
Qed.

Lemma enumerate_from_fst {A : Type} (l : list A) (i : nat) :
  map fst (Py.enumerate_from (Z.of_nat i) l)
  = map Z.of_nat (seq i (List.length l)).
Proof.
  revert i. induction l as [|x l IH]; intros i; simpl; [reflexivity|].
  f_equal. replace (Z.of_nat i + 1) with (Z.of_nat (S i)) by lia. apply IH.
Qed.

Lemma enumerate_from_snd {A : Type} (l : list A) (i : Z) :
  map snd (Py.enumerate_from i l) = l.
Proof.
  revert i. induction l as [|x l IH]; intros i; simpl; [reflexivity|].
  f_equal. apply IH.
Qed.

Lemma NoDup_map_injective {A B : Type} (f : A -> B) (l : list A) :
  (forall x y, f x = f y -> x = y) -> NoDup l -> NoDup (map f l).
Proof.
  intros Hf Hl. induction Hl as [|x l Hx Hl IH]; simpl; constructor.
  - intros Hin. apply in_map_iff in Hin. destruct Hin as [y [Hy Hin]].
    apply Hf in Hy. subst y. exact (Hx Hin).
  - exact IH.
Qed.

Lemma fallback_contents (doc : ParsedDocument) (l : list string) (i : Z) :
  map Chunk.content
    (map (fun it => Single.create_chunk_dict doc (snd it) (fst it) None None)
         (Py.enumerate_from i l)) = l.
Proof.
  revert i. induction l as [|x l IH]; intros i; simpl; [reflexivity|].
  f_equal. apply IH.
Qed.

Lemma fallback_ids (doc : ParsedDocument) (l : list string) (i : nat) :
  map Chunk.id
    (map (fun it => Single.create_chunk_dict doc (snd it) (fst it) None None)
         (Py.enumerate_from (Z.of_nat i) l))
  = map (fun k => (Doc.document_id doc ++ "_chunk_"
                     ++ Py.str_of_int (Z.of_nat k))%string)
        (seq i (List.length l)).
Proof.
  revert i. induction l as [|x l IH]; intros i; simpl; [reflexivity|].
  f_equal. replace (Z.of_nat i + 1) with (Z.of_nat (S i)) by lia. apply IH.
Qed.

(** X5. For a document without sections, once the splitter has returned
    its pieces, [chunk_document] returns one record per piece, in order:
    the content is the piece, there is no section number or heading, the
    id is the one the record's [chunk_index] spells, and no two records
    share an id. *)
Theorem fallback_records (fuel : nat) (doc : ParsedDocument)
    (encoding : Encoding) (pieces : list string) :
  Doc.sections doc = [] ->
  Doc.full_text doc <> "" ->
  Single.chunk_text fuel (Doc.full_text doc) encoding Single.MIN_CHUNK_SIZE
    Single.MAX_CHUNK_SIZE Single.OVERLAP_SIZE = Returns pieces ->
  exists chunks,
    Single.chunk_document fuel doc encoding = Returns chunks /\
    map Chunk.content chunks = pieces /\
    Forall (fun c => Chunk.section_number c = None /\
                     Chunk.section_heading c = None) chunks /\
    Forall (id_matches_index doc) chunks /\
    NoDup (map Chunk.id chunks).
Proof.
  intros Hs Ht Hp. unfold Single.chunk_document. rewrite Hs.
  destruct (Doc.full_text doc) as [|c t] eqn:Et; [congruence|].
  rewrite Hp. simpl. eexists. split; [reflexivity|].
  repeat split.
  - apply fallback_contents.
  - apply Forall_map, Forall_forall. intros it _. split; reflexivity.
  - apply Forall_map, Forall_forall. intros it _. reflexivity.
  - unfold Py.enumerate. pose proof (fallback_ids doc pieces 0) as E.
    change (Z.of_nat 0) with 0 in E. rewrite E.
    apply NoDup_map_injective; [|apply seq_NoDup].
    intros x y H. apply append_same_prefix in H.
    apply (append_same_prefix "_chunk_") in H.
    apply str_of_int_inj in H. lia.
Qed.

Lemma fallback_records_witness :
  Doc.sections (sample_doc [] (repeat_char "a" 1001)) = [] /\
  exists chunks,
    Single.chunk_document 2 (sample_doc [] (repeat_char "a" 1001))
      char_encoding = Returns chunks /\
    map Chunk.content chunks = [repeat_char "a" 1000; repeat_char "a" 101].
Proof.
  split; [reflexivity|].
  destruct (fallback_records 2 (sample_doc [] (repeat_char "a" 1001))
              char_encoding [repeat_char "a" 1000; repeat_char "a" 101])
    as [chunks [Hr [Hc _]]].
  - reflexivity.
  - discriminate.
  - vm_compute. reflexivity.
  - exists chunks. split; [exact Hr | exact Hc].
Defined.

(** ** The batch *)

Lemma documents_loop_acc (fuel : nat) (documents : list ParsedDocument)
    (encoding : Encoding) (acc : list ChunkRecord) :
  documents_loop fuel documents encoding acc
  = r <- documents_loop fuel documents encoding [] ;; Returns (acc ++ r)%list.
Proof.
  revert acc. induction documents as [|d rest IH]; intros acc; simpl.
  - rewrite app_nil_r. reflexivity.
  - destruct (Single.chunk_document fuel d encoding) as [cs|e|];
      [|apply IH|reflexivity].
    rewrite (IH (acc ++ cs)%list), (IH cs).
    destruct (documents_loop fuel rest encoding []); simpl;
      [rewrite app_assoc|..]; reflexivity.
Qed.

(** X6. [chunk_documents] chunks a batch document by document and keeps
    the order: the result for two batches put end to end is the result
    for the first followed by the result for the second. *)
Theorem chunk_documents_app (fuel : nat) (ds1 ds2 : list ParsedDocument)
    (get_encoding : outcome Encoding) :
  chunk_documents fuel (ds1 ++ ds2) get_encoding
  = r1 <- chunk_documents fuel ds1 get_encoding ;;
    r2 <- chunk_documents fuel ds2 get_encoding ;;
    Returns (r1 ++ r2)%list.
Proof.
  unfold chunk_documents.
  destruct get_encoding as [encoding|e|]; simpl; [|reflexivity|reflexivity].
  induction ds1 as [|d rest IH]; simpl.
  - destruct (documents_loop fuel ds2 encoding []); reflexivity.
  - destruct (Single.chunk_document fuel d encoding) as [cs|e|];
      [|exact IH|reflexivity].
    rewrite (documents_loop_acc fuel (rest ++ ds2)), IH.
    rewrite (documents_loop_acc fuel rest encoding cs).
    destruct (documents_loop fuel rest encoding []) as [r1|e|]; simpl;
      [|reflexivity|reflexivity].
    destruct (documents_loop fuel ds2 encoding []) as [r2|e|]; simpl;
      [rewrite app_assoc|..]; reflexivity.
Qed.

Lemma documents_loop_catches (fuel : nat) (documents : list ParsedDocument)
    (encoding : Encoding) (acc : list ChunkRecord) (e : PyError) :
  documents_loop fuel documents encoding acc <> Raises e.
Proof.
  revert acc. induction documents as [|d rest IH]; intros acc; simpl;
    [discriminate|].
  destruct (Single.chunk_document fuel d encoding);
    [apply IH | apply IH | discriminate].
Qed.

(** X7. [chunk_documents] raises exactly when the lookup of the encoding
    on line 27 raises, and then with that exception: the lookup runs
    outside the [try], while whatever a document makes [chunk_document]
    raise is caught inside the loop and never leaves the function. *)
Theorem chunk_documents_raises_iff (fuel : nat)
    (documents : list ParsedDocument) (get_encoding : outcome Encoding)
    (e : PyError) :
  chunk_documents fuel documents get_encoding = Raises e
  <-> get_encoding = Raises e.
Proof.
  unfold chunk_documents. destruct get_encoding as [encoding|e'|]; simpl.
  - split; [|discriminate].
    intros H. exfalso. exact (documents_loop_catches _ _ _ _ _ H).
  - split; intros [= <-]; reflexivity.
  - split; discriminate.
Qed.

(** X8. A document with one section over the budget is lost to the batch
    as a whole: [chunk_documents] gives the same result as if the document
    were not in the list, so the sections of that document that fit get no
    record either. *)
Theorem chunk_documents_drops_oversized (fuel : nat)
    (ds1 ds2 : list ParsedDocument) (d : ParsedDocument)
    (encoding : Encoding) (s : Section) :
  In s (Doc.sections d) ->
  Single.MAX_CHUNK_SIZE < Py.llen (encode encoding (Single.section_text s)) ->
  chunk_documents fuel (ds1 ++ d :: ds2) (Returns encoding)
  = chunk_documents fuel (ds1 ++ ds2) (Returns encoding).
Proof.
  intros Hin Hbig.
  assert (Hd : Single.chunk_document fuel d encoding
               = Raises (UnboundLocalError "chunk_text")).
  { unfold Single.chunk_document.
    destruct (Doc.sections d) as [|x rest] eqn:Es; [destruct Hin|].
    rewrite (sections_loop_oversized d encoding (x :: rest) ([], 0) s Hin Hbig).
    reflexivity. }
  unfold chunk_documents. simpl. generalize (@nil ChunkRecord).
  induction ds1 as [|a ds1 IH]; intros acc; simpl.
  - rewrite Hd. reflexivity.
  - destruct (Single.chunk_document fuel a encoding); [apply IH | apply IH |].
    reflexivity.
Qed.

Lemma chunk_documents_drops_oversized_witness :
  In sec_long (Doc.sections (sample_doc [sec_scope; sec_long] "")) /\
  chunk_documents 0
    ([sample_doc [sec_penalties] ""]
     ++ sample_doc [sec_scope; sec_long] "" :: [sample_doc [sec_scope] ""])
    (Returns char_encoding)
  = chunk_documents 0
      ([sample_doc [sec_penalties] ""] ++ [sample_doc [sec_scope] ""])
      (Returns char_encoding).
Proof.
  split; [right; left; reflexivity|].
  apply (chunk_documents_drops_oversized 0 [sample_doc [sec_penalties] ""]
           [sample_doc [sec_scope] ""] (sample_doc [sec_scope; sec_long] "")
           char_encoding sec_long);
    [right; left; reflexivity | vm_compute; reflexivity].
Defined.

(** ** Token-exact cuts *)

Section ExactCuts.

Variable encoding : Encoding.
Variable tokens : list Z.
Variables min_size max_size overlap : Z.

Hypothesis overlap_below_max : 0 <= overlap < max_size.
Hypothesis oversized : max_size < Py.llen tokens.

(** Snapping finds no boundary, at any cursor. *)
Hypothesis never_snapped :
  forall start,
    0 <= start < Py.llen tokens ->
    snap encoding tokens min_size max_size start = None.

Lemma cut_count_spec :
  let q := Z.of_nat (cut_count (Py.llen tokens) max_size overlap) - 1 in
  0 <= q /\
  Py.llen tokens <= q * (max_size - overlap) + max_size /\
  forall j, 0 <= j < q -> j * (max_size - overlap) + max_size < Py.llen tokens.
Proof.
  unfold cut_count.
  set (step := max_size - overlap). set (total := Py.llen tokens).
  assert (Hstep : 0 < step) by (unfold step; lia).
  assert (Hn : 0 <= total - max_size + step - 1) by (unfold total; lia).
  pose proof (Z.div_pos _ _ Hn Hstep) as Hq.
  pose proof (Z.mul_div_le (total - max_size + step - 1) step Hstep) as Hlo.
  pose proof (Z.mul_succ_div_gt (total - max_size + step - 1) step Hstep)
    as Hhi.
  set (q := (total - max_size + step - 1) / step) in *.
  rewrite Z2Nat.id by lia. cbv zeta.
  replace (q + 1 - 1) with q by lia.
  split; [exact Hq|]. split; [nia|].
  intros j Hj. nia.
Qed.

Lemma chunk_text_loop_cuts (n j fuel : nat) (acc : list string) :
  (j + S n = cut_count (Py.llen tokens) max_size overlap)%nat ->
  (S n <= fuel)%nat ->
  Single.chunk_text_loop fuel encoding tokens min_size max_size overlap
    (Z.of_nat j * (max_size - overlap)) acc
  = Returns (acc ++ map (cut_at encoding tokens max_size overlap)
                        (seq j (S n)))%list.
Proof.
  pose proof cut_count_spec as [Hq [Hlast Hbefore]]. cbv zeta in *.
  revert j fuel acc. induction n as [|n IH]; intros j fuel acc Hj Hfuel;
    (destruct fuel as [|fuel]; [lia|]).
  - assert (Hstart : Z.of_nat j * (max_size - overlap) < Py.llen tokens).
    { destruct j as [|j]; [lia|].
      specialize (Hbefore (Z.of_nat j)). nia. }
    simpl Single.chunk_text_loop.
    apply Z.ltb_lt in Hstart. rewrite Hstart.
    rewrite last_chunk_as_is by nia.
    destruct fuel; simpl; rewrite Z.ltb_irrefl; unfold cut_at;
      (replace (Z.min (Z.of_nat j * (max_size - overlap) + max_size)
                 (Py.llen tokens)) with (Py.llen tokens) by nia);
      reflexivity.
  - assert (Hmore : Z.of_nat j * (max_size - overlap) + max_size
                    < Py.llen tokens).
    { apply Hbefore. lia. }
    assert (Hstart : Z.of_nat j * (max_size - overlap) < Py.llen tokens)
      by lia.
    simpl Single.chunk_text_loop.
    apply Z.ltb_lt in Hstart. rewrite Hstart.
    rewrite chunk_text_iter_snap, never_snapped
      by (apply Z.ltb_lt in Hstart; nia).
    cbv zeta.
    replace (Z.min (Z.of_nat j * (max_size - overlap) + max_size)
               (Py.llen tokens))
      with (Z.of_nat j * (max_size - overlap) + max_size) by lia.
    apply Z.ltb_lt in Hmore. rewrite Hmore.
    replace (Z.of_nat j * (max_size - overlap) + max_size - overlap)
      with (Z.of_nat (S j) * (max_size - overlap)) by lia.
    rewrite (IH (S j) fuel) by lia.
    rewrite <- app_assoc. f_equal.
    change (seq j (S (S n))) with (j :: seq (S j) (S n)).
    simpl map. simpl app. f_equal. unfold cut_at.
    apply Z.ltb_lt in Hmore.
    replace (Z.min (Z.of_nat j * (max_size - overlap) + max_size)
               (Py.llen tokens))
      with (Z.of_nat j * (max_size - overlap) + max_size) by lia.
    reflexivity.
Qed.

End ExactCuts.

(** X9. When boundary snapping never finds a boundary, the splitter
    degrades to token-exact cuts: for a text over the budget, [chunk_text]
    returns after exactly [cut_count] iterations, and its [i]-th chunk is
    the decoded slice of at most [max_size] tokens that starts at token
    [i * (max_size - overlap)]. *)
Theorem token_exact_cuts (encoding : Encoding) (text : string)
    (min_size max_size overlap : Z) :
  0 <= overlap < max_size ->
  max_size < Py.llen (encode encoding text) ->
  (forall start,
     0 <= start < Py.llen (encode encoding text) ->
     snap encoding (encode encoding text) min_size max_size start = None) ->
  Single.chunk_text
    (cut_count (Py.llen (encode encoding text)) max_size overlap)
    text encoding min_size max_size overlap
  = Returns
      (map (cut_at encoding (encode encoding text) max_size overlap)
           (seq 0 (cut_count (Py.llen (encode encoding text))
                     max_size overlap))).
Proof.
  intros Ho Hbig Hsnap. unfold Single.chunk_text.
  replace (Py.llen (encode encoding text) <=? max_size) with false
    by (symmetry; apply Z.leb_gt; exact Hbig).
  pose proof (cut_count_spec (encode encoding text) max_size overlap Ho Hbig)
    as [Hq _]. cbv zeta in Hq.
  destruct (cut_count (Py.llen (encode encoding text)) max_size overlap)
    as [|n] eqn:Ek; [lia|].
  apply (chunk_text_loop_cuts encoding (encode encoding text) min_size
           max_size overlap Ho Hbig Hsnap n 0 (S n) []); [|lia].
  rewrite Ek. reflexivity.
Qed.

Lemma token_exact_cuts_witness :
  0 <= 1 < 10 /\
  Single.chunk_text 3 (repeat_char "a" 25) char_encoding 8 10 1
  = Returns [repeat_char "a" 10; repeat_char "a" 10; repeat_char "a" 7].
Proof.
  split; [lia|].
  apply (token_exact_cuts char_encoding (repeat_char "a" 25) 8 10 1);
    [lia | vm_compute; reflexivity |].
  intros start Hs.
  assert (Hc : In start [0; 1; 2; 3; 4; 5; 6; 7; 8; 9; 10; 11; 12; 13; 14;
                         15; 16; 17; 18; 19; 20; 21; 22; 23; 24])
    by (change (Py.llen (encode char_encoding (repeat_char "a" 25)))
          with 25 in Hs; simpl; lia).
  simpl in Hc.
  repeat (destruct Hc as [<-|Hc]; [vm_compute; reflexivity|]).
  destruct Hc.
Defined.

(** ** Tokenizers that count characters *)

Lemma char_encoding_faithful : length_faithful char_encoding.
Proof.
  split.
  - intros s. simpl. rewrite length_map.
    induction s as [|c s IH]; simpl; [reflexivity | f_equal; exact IH].
  - intros ts. simpl.
    induction ts as [|t ts IH]; simpl; [reflexivity | f_equal; exact IH].
Qed.

Lemma slice_length {A : Type} (l : list A) (lo hi : Z) :
  0 <= lo <= hi -> hi <= Py.llen l ->
  Py.llen (Py.slice l lo hi) = hi - lo.
Proof.
  intros H1 H2. unfold Py.slice, Py.clamp, Py.llen in *.
  replace (lo <? 0) with false by (symmetry; apply Z.ltb_ge; lia).
  replace (hi <? 0) with false by (symmetry; apply Z.ltb_ge; lia).
  rewrite length_firstn, length_skipn. lia.
Qed.

Lemma positive_boundary_in_text (text : string) (start_pos : nat) :
  0 < find_sentence_boundary text start_pos ->
  Z.of_nat start_pos <= find_sentence_boundary text start_pos <= Py.len text /\
  Py.len (Py.str_upto text (find_sentence_boundary text start_pos))
    = find_sentence_boundary text start_pos.
Proof.
  assert (Hin : forall r : nat,
            (start_pos <= r)%nat -> (r <= String.length text)%nat ->
            Z.of_nat start_pos <= Z.of_nat r <= Py.len text /\
            Py.len (Py.str_upto text (Z.of_nat r)) = Z.of_nat r).
  { intros r H1 H2. unfold Py.len, Py.str_upto.
    rewrite Nat2Z.id, length_substring_0. lia. }
  unfold find_sentence_boundary, Py.find.
  destruct (sentence_loop text start_pos (String.length text - start_pos))
    as [r|] eqn:El.
  - intros _. apply sentence_loop_some in El.
    destruct El as [k [-> [Hlt [Hle _]]]]. apply Hin; lia.
  - destruct (String.index start_pos para_break text) as [p|] eqn:Ei;
      [|simpl; lia].
    destruct (0 <? Z.of_nat p) eqn:Ep; [|lia].
    intros _. apply find_some in Ei.
    destruct Ei as [Hle [[_ Hb] _]]. apply get_some_lt in Hb.
    apply Hin; lia.
Qed.

Section Faithful.

Variable encoding : Encoding.
Hypothesis faithful : length_faithful encoding.

Variable tokens : list Z.
Variables min_size max_size overlap : Z.

Hypothesis overlap_small : 0 <= overlap < int_08 max_size.

Lemma tokens_of_text (s : string) : Py.llen (encode encoding s) = Py.len s.
Proof. unfold Py.llen, Py.len. rewrite (proj1 faithful). reflexivity. Qed.

Lemma text_of_tokens (ts : list Z) : Py.len (decode encoding ts) = Py.llen ts.
Proof. unfold Py.llen, Py.len. rewrite (proj2 faithful). reflexivity. Qed.

Lemma max_size_positive : overlap < max_size /\ 0 < max_size.
Proof.
  unfold int_08 in overlap_small.
  assert (H : 4 * max_size / 5 <= max_size \/ max_size < 0) by
    (destruct (Z_lt_le_dec max_size 0) as [Hn|Hp];
     [right; exact Hn | left; apply Z.div_le_upper_bound; lia]).
  destruct H as [H|H]; [lia|].
  assert (4 * max_size / 5 < 0) by (apply Z.div_lt_upper_bound; lia). lia.
Qed.

(** What one iteration emits and where it leaves the cursor. *)
Lemma chunk_text_iter_faithful (start : Z) :
  0 <= start < Py.llen tokens ->
  let it :=
    Single.chunk_text_iter encoding tokens min_size max_size overlap start in
  fst it <> "" /\
  Py.llen (encode encoding (fst it)) <= max_size /\
  (start < snd it \/ Py.llen tokens <= snd it).
Proof.
  intros Hs. pose proof max_size_positive as [Hom Hmax].
  set (e := Z.min (start + max_size) (Py.llen tokens)).
  assert (Hlen : Py.len (decode encoding (Py.slice tokens start e)) = e - start).
  { rewrite text_of_tokens. apply slice_length; unfold e; lia. }
  assert (Hne : forall s : string, 0 < Py.len s -> s <> "").
  { intros s H ->. unfold Py.len in H. simpl in H. lia. }
  cbv zeta. rewrite chunk_text_iter_snap. unfold snap. fold e.
  destruct ((e <? Py.llen tokens)
            && (min_size <=? Py.llen (Py.slice tokens start e))) eqn:Eg.
  - apply andb_true_iff in Eg. destruct Eg as [Elt _].
    apply Z.ltb_lt in Elt.
    assert (He : e = start + max_size) by (unfold e in *; lia).
    assert (Hlen' : Py.len (decode encoding (Py.slice tokens start e))
                    = max_size) by lia.
    rewrite Hlen'.
    destruct (0 <? find_sentence_boundary
                     (decode encoding (Py.slice tokens start e))
                     (Z.to_nat (int_08 max_size))) eqn:Er.
    + apply Z.ltb_lt in Er.
      destruct (positive_boundary_in_text _ _ Er) as [[Hlo Hhi] Hcut].
      rewrite Hlen' in Hhi. rewrite Z2Nat.id in Hlo
        by (unfold int_08; apply Z.div_pos; lia).
      cbv zeta. simpl fst. simpl snd.
      rewrite tokens_of_text, Hcut. split; [|split].
      * apply Hne. rewrite Hcut. exact Er.
      * exact Hhi.
      * destruct (_ <? Py.llen tokens) eqn:El;
          [left; lia | right; apply Z.ltb_ge in El; exact El].
    + cbv zeta. simpl fst. simpl snd. rewrite tokens_of_text, Hlen.
      split; [apply Hne; lia|]. split; [lia|].
      apply Z.ltb_lt in Elt. rewrite Elt. left. lia.
  - assert (Hb : start < e <= start + max_size) by (unfold e; lia).
    cbv zeta. simpl fst. simpl snd. rewrite tokens_of_text, Hlen.
    split; [apply Hne; lia|]. split; [lia|].
    destruct (e <? Py.llen tokens) eqn:El.
    + apply Z.ltb_lt in El. left. unfold e in *. lia.
    + apply Z.ltb_ge in El. right. exact El.
Qed.

Lemma chunk_text_loop_faithful (fuel : nat) (start : Z) (acc : list string) :
  0 <= start ->
  Py.llen tokens - start <= Z.of_nat fuel ->
  Forall (fun c => c <> "" /\ Py.llen (encode encoding c) <= max_size) acc ->
  exists chunks,
    Single.chunk_text_loop fuel encoding tokens min_size max_size overlap
      start acc = Returns chunks /\
    Forall (fun c => c <> "" /\ Py.llen (encode encoding c) <= max_size)
      chunks.
Proof.
  revert start acc. induction fuel as [|fuel IH]; intros start acc H0 Hf Hacc;
    simpl; destruct (start <? Py.llen tokens) eqn:Es;
    try (exists acc; split; [reflexivity | exact Hacc]).
  - apply Z.ltb_lt in Es. lia.
  - apply Z.ltb_lt in Es.
    pose proof (chunk_text_iter_faithful start (conj H0 Es)) as Hit.
    cbv zeta in Hit.
    destruct (Single.chunk_text_iter encoding tokens min_size max_size
                overlap start) as [ct start'].
    simpl in Hit. destruct Hit as [Hne [Hle Hmove]].
    apply IH; try lia.
    apply Forall_app. split; [exact Hacc|].
    constructor; [split; assumption | constructor].
Qed.

End Faithful.

(** X10. With a tokenizer that counts one token per character and an
    overlap below [int(0.8 * max_size)], the splitter always returns, and
    every chunk of a non-empty text is itself non-empty and within the
    budget of [max_size] tokens. *)
Theorem chunk_text_within_budget (encoding : Encoding) (text : string)
    (min_size max_size overlap : Z) :
  length_faithful encoding ->
  0 <= overlap < int_08 max_size ->
  text <> "" ->
  exists chunks,
    Single.chunk_text (List.length (encode encoding text)) text encoding
      min_size max_size overlap = Returns chunks /\
    Forall (fun c => c <> "" /\ Py.llen (encode encoding c) <= max_size)
      chunks.
Proof.
  intros Hf Ho Hne. unfold Single.chunk_text.
  destruct (Py.llen (encode encoding text) <=? max_size) eqn:E.
  - exists [text]. split; [reflexivity|].
    constructor; [|constructor]. split; [exact Hne|].
    apply Z.leb_le. exact E.
  - apply (chunk_text_loop_faithful encoding Hf (encode encoding text)
             min_size max_size overlap Ho); [lia | unfold Py.llen; lia
                                            | constructor].
Qed.

Lemma chunk_text_within_budget_witness :
  0 <= 2 < int_08 10 /\
  exists chunks,
    Single.chunk_text (List.length (encode char_encoding short_text))
      short_text char_encoding 8 10 2 = Returns chunks /\
    Forall (fun c => c <> "" /\ Py.llen (encode char_encoding c) <= 10) chunks.
Proof.
  split; [vm_compute; split; [discriminate | reflexivity]|].
  apply (chunk_text_within_budget char_encoding short_text 8 10 2).
  - exact char_encoding_faithful.
  - vm_compute. split; [discriminate | reflexivity].
  - discriminate.
Defined.

(** X11. With a tokenizer that counts one token per character, the
    full-text fallback keeps the record invariant: for a document without
    sections [chunk_document] returns, and every record has a non-empty
    content of at most 1000 tokens. *)
Theorem fallback_within_budget (encoding : Encoding) (doc : ParsedDocument) :
  length_faithful encoding ->
  Doc.sections doc = [] ->
  exists chunks,
    Single.chunk_document
      (List.length (encode encoding (Doc.full_text doc))) doc encoding
      = Returns chunks /\
    Forall (fun c => Chunk.content c <> "" /\
                     Py.llen (encode encoding (Chunk.content c))
                     <= Single.MAX_CHUNK_SIZE) chunks.
Proof.
  intros Hf Hs. unfold Single.chunk_document. rewrite Hs.
  destruct (Doc.full_text doc) as [|c t] eqn:Et.
  - exists []. split; [reflexivity | constructor].
  - assert (Hp : exists pieces,
        Single.chunk_text (List.length (encode encoding (String c t)))
          (String c t) encoding Single.MIN_CHUNK_SIZE Single.MAX_CHUNK_SIZE
          Single.OVERLAP_SIZE = Returns pieces /\
        Forall (fun p => p <> "" /\
                         Py.llen (encode encoding p) <= Single.MAX_CHUNK_SIZE)
          pieces).
    { unfold Single.chunk_text.
      destruct (Py.llen (encode encoding (String c t))
                <=? Single.MAX_CHUNK_SIZE) eqn:E.
      - exists [String c t]. split; [reflexivity|].
        constructor; [|constructor]. split; [discriminate|].
        apply Z.leb_le. exact E.
      - apply (chunk_text_loop_faithful encoding Hf
                 (encode encoding (String c t)) Single.MIN_CHUNK_SIZE
                 Single.MAX_CHUNK_SIZE Single.OVERLAP_SIZE);
          [vm_compute; split; [discriminate | reflexivity]
          | lia | unfold Py.llen; lia | constructor]. }
    destruct Hp as [pieces [Hr Hall]]. rewrite Hr. simpl.
    eexists. split; [reflexivity|].
    apply Forall_forall. intros r Hin.
    apply in_map_iff in Hin. destruct Hin as [it [<- Hit]]. simpl.
    assert (Hsnd : In (snd it) pieces).
    { rewrite <- (enumerate_from_snd pieces 0). apply in_map. exact Hit. }
    exact (proj1 (Forall_forall _ _) Hall _ Hsnd).
Qed.

Lemma fallback_within_budget_witness :
  Doc.sections (sample_doc [] short_text) = [] /\
  exists chunks,
    Single.chunk_document
      (List.length (encode char_encoding
                      (Doc.full_text (sample_doc [] short_text))))
      (sample_doc [] short_text) char_encoding = Returns chunks /\
    Forall (fun c => Chunk.content c <> "" /\
                     Py.llen (encode char_encoding (Chunk.content c))
                     <= Single.MAX_CHUNK_SIZE) chunks.
Proof.
  split; [reflexivity|].
  apply (fallback_within_budget char_encoding (sample_doc [] short_text));
    [exact char_encoding_faithful | reflexivity].
Defined.

(** ** The staged splitter under any configuration *)

Lemma staged_chunk_text_loop_cfg (cfg : Staged.Config) (fuel : nat)
    (encoding : Encoding) (tokens : list Z) (start : Z)
    (chunks : list string) :
  Staged.chunk_text_loop cfg fuel encoding tokens start chunks
  = Single.chunk_text_loop fuel encoding tokens (Staged.MIN_CHUNK_SIZE cfg)
      (Staged.MAX_CHUNK_SIZE cfg) (Staged.OVERLAP_SIZE cfg) start chunks.
Proof.
  revert start chunks. induction fuel as [|fuel IH]; intros start chunks;
    simpl; [reflexivity|].
  destruct (start <? Py.llen tokens); [|reflexivity].
  change (Staged.chunk_text_iter cfg encoding tokens start)
    with (Single.chunk_text_iter encoding tokens (Staged.MIN_CHUNK_SIZE cfg)
            (Staged.MAX_CHUNK_SIZE cfg) (Staged.OVERLAP_SIZE cfg) start).
  destruct (Single.chunk_text_iter _ _ _ _ _ _) as [ct start']. apply IH.
Qed.

(** X12. Whatever sizes the stage reads from its environment, its
    [chunk_text] is the single-pass [chunk_text] called with those sizes
    as [min_size], [max_size] and [overlap]: same chunks, same
    iterations. *)
Theorem staged_chunk_text_is_single (cfg : Staged.Config) (fuel : nat)
    (text : string) (encoding : Encoding) :
  Staged.chunk_text cfg fuel text encoding
  = Single.chunk_text fuel text encoding (Staged.MIN_CHUNK_SIZE cfg)
      (Staged.MAX_CHUNK_SIZE cfg) (Staged.OVERLAP_SIZE cfg).
Proof.
  unfold Staged.chunk_text, Single.chunk_text.
  destruct (Py.llen (encode encoding text) <=? Staged.MAX_CHUNK_SIZE cfg);
    [reflexivity|].
  apply staged_chunk_text_loop_cfg.
Qed.

(** ** The chunk stage *)

Lemma blob_exists_after_upload (st : Stage3.Store) (name : string)
    (items : list ChunkRecord) :
  Stage3.blob_exists (Stage3.upload_jsonl st name items) name = true.
Proof.
  unfold Stage3.blob_exists, Stage3.upload_jsonl. simpl.
  rewrite String.eqb_refl. reflexivity.
Qed.

(** X13. With [SKIP_EXISTING] on, [process_document] is idempotent: after
    a run that returned, a second run on the same blob returns 0 and
    leaves the store exactly as the first run left it, so chunks once
    written are neither recreated nor renumbered. *)
Theorem process_document_idempotent (cfg : Staged.Config) (fuel : nat)
    (st st' : Stage3.Store) (blob_name year : string) (encoding : Encoding)
    (n : Z) :
  Stage3.process_document true cfg fuel st blob_name year encoding
    = Returns (n, st') ->
  Stage3.process_document true cfg fuel st' blob_name year encoding
    = Returns (0, st').
Proof.
  intros H. pose proof H as H0. unfold Stage3.process_document in H.
  cbv zeta in H. simpl andb in H.
  destruct (Stage3.blob_exists st (Stage3.output_blob_of blob_name year))
    eqn:Ee.
  - injection H as <- <-. exact H0.
  - destruct (Stage3.parsed st blob_name) as [doc|] eqn:Ep.
    + destruct (Staged.chunk_document cfg fuel doc encoding)
        as [[|c cs]|e|] eqn:Ec; try discriminate.
      * injection H as <- <-. exact H0.
      * injection H as <- <-. unfold Stage3.process_document. cbv zeta.
        rewrite blob_exists_after_upload. reflexivity.
      * injection H as <- <-. exact H0.
    + injection H as <- <-. exact H0.
Qed.

(** X14. What a run of [process_document] leaves behind. Either it
    returns 0 and the store is untouched, or it returns the positive
    number of records the chunker returned for the parsed document, these
    records are now the content of the output blob
    [{year}/{doc_id}.jsonl], and every other blob is as before. *)
Theorem process_document_stores (skip_existing : bool) (cfg : Staged.Config)
    (fuel : nat) (st st' : Stage3.Store) (blob_name year : string)
    (encoding : Encoding) (n : Z) :
  Stage3.process_document skip_existing cfg fuel st blob_name year encoding
    = Returns (n, st') ->
  (n = 0 /\ st' = st) \/
  (0 < n /\
   exists doc records,
     Stage3.parsed st blob_name = Some doc /\
     Staged.chunk_document cfg fuel doc encoding = Returns records /\
     n = Py.llen records /\
     Stage3.chunks st' (Stage3.output_blob_of blob_name year) = Some records /\
     Stage3.parsed st' = Stage3.parsed st /\
     forall other,
       other <> Stage3.output_blob_of blob_name year ->
       Stage3.chunks st' other = Stage3.chunks st other).
Proof.
  unfold Stage3.process_document. cbv zeta.
  destruct (skip_existing
            && Stage3.blob_exists st (Stage3.output_blob_of blob_name year)).
  - intros [= <- <-]. left. split; reflexivity.
  - destruct (Stage3.parsed st blob_name) as [doc|] eqn:Ep.
    + destruct (Staged.chunk_document cfg fuel doc encoding)
        as [[|c cs]|e|] eqn:Ec; try discriminate;
        try (intros [= <- <-]; left; split; reflexivity).
      intros [= <- <-]. right. split.
      * unfold Py.llen. simpl List.length. lia.
      * exists doc, (c :: cs).
        split; [reflexivity|]. split; [exact Ec|]. split; [reflexivity|].
        split; [simpl; rewrite String.eqb_refl; reflexivity|].
        split; [reflexivity|].
        intros other Hne. simpl.
        apply String.eqb_neq in Hne. rewrite Hne. reflexivity.
    + intros [= <- <-]. left. split; reflexivity.
Qed.

Lemma process_document_idempotent_witness :
  Stage3.process_document true Staged.default_config 0 sample_store
    "2024/1234.json" "2024" char_encoding
  = Returns (2, Stage3.upload_jsonl sample_store "2024/1234.jsonl"
                  sample_records) /\
  Stage3.process_document true Staged.default_config 0
    (Stage3.upload_jsonl sample_store "2024/1234.jsonl" sample_records)
    "2024/1234.json" "2024" char_encoding
  = Returns (0, Stage3.upload_jsonl sample_store "2024/1234.jsonl"
                  sample_records).
Proof.
  split; [vm_compute; reflexivity|].
  apply (process_document_idempotent Staged.default_config 0 sample_store
           (Stage3.upload_jsonl sample_store "2024/1234.jsonl" sample_records)
           "2024/1234.json" "2024" char_encoding 2).
  vm_compute. reflexivity.
Defined.

Lemma process_document_stores_witness :
  Stage3.process_document true Staged.default_config 0 sample_store
    "2024/1234.json" "2024" char_encoding
  = Returns (2, Stage3.upload_jsonl sample_store "2024/1234.jsonl"
                  sample_records) /\
  ((2 = 0 /\
    Stage3.upload_jsonl sample_store "2024/1234.jsonl" sample_records
    = sample_store) \/
   (0 < 2 /\
    exists doc records,
      Stage3.parsed sample_store "2024/1234.json" = Some doc /\
      Staged.chunk_document Staged.default_config 0 doc char_encoding
        = Returns records /\
      2 = Py.llen records /\
      Stage3.chunks
        (Stage3.upload_jsonl sample_store "2024/1234.jsonl" sample_records)
        (Stage3.output_blob_of "2024/1234.json" "2024") = Some records /\
      Stage3.parsed
        (Stage3.upload_jsonl sample_store "2024/1234.jsonl" sample_records)
      = Stage3.parsed sample_store /\
      forall other,
        other <> Stage3.output_blob_of "2024/1234.json" "2024" ->
        Stage3.chunks
          (Stage3.upload_jsonl sample_store "2024/1234.jsonl" sample_records)
          other
        = Stage3.chunks sample_store other)).
Proof.
  split; [vm_compute; reflexivity|].
  apply (process_document_stores true Staged.default_config 0 sample_store
           (Stage3.upload_jsonl sample_store "2024/1234.jsonl" sample_records)
           "2024/1234.json" "2024" char_encoding 2).
  vm_compute. reflexivity.
Defined.

(** ** Document ids from blob names *)

Lemma split_char_single (sep : ascii) (t : string) :
  contains_char sep t = false -> PyStr.split_char sep t = [t].
Proof.
  induction t as [|c t IH]; simpl; [reflexivity|].
  intros H. apply orb_false_iff in H. destruct H as [Hc Ht].
  rewrite Hc, (IH Ht). reflexivity.
Qed.

Lemma split_char_last_piece (sep : ascii) (d t : string) :
  contains_char sep t = false ->
  exists pieces,
    pieces <> [] /\
    PyStr.split_char sep (d ++ String sep t) = (pieces ++ [t])%list.
Proof.
  intros Ht. induction d as [|c d IH]; simpl.
  - rewrite Ascii.eqb_refl, (split_char_single sep t Ht).
    exists [""]. split; [discriminate | reflexivity].
  - destruct IH as [pieces [Hne ->]].
    destruct (Ascii.eqb c sep).
    + exists ("" :: pieces). split; [discriminate | reflexivity].
    + destruct pieces as [|p ps]; [congruence|]. simpl.
      exists (String c p :: ps). split; [discriminate | reflexivity].
Qed.

Lemma replace_from_skip (old new : string) (s : string) (skip : nat) :
  (String.length s <= skip)%nat -> PyStr.replace_from old new skip s = "".
Proof.
  revert skip. induction s as [|c s IH]; intros skip H; simpl;
    [reflexivity|].
  destruct skip as [|k]; [simpl in H; lia|]. apply IH. simpl in H. lia.
Qed.

Lemma prefix_refl (s : string) : String.prefix s s = true.
Proof.
  induction s as [|c s IH]; simpl; [reflexivity|].
  destruct (ascii_dec c c) as [_|Hn]; [exact IH | congruence].
Qed.

Lemma prefix_head_differs (a c : ascii) (s1 s2 : string) :
  a <> c -> String.prefix (String a s1) (String c s2) = false.
Proof.
  intros Hn. destruct (String.prefix (String a s1) (String c s2)) eqn:E;
    [|reflexivity].
  apply prefix_correct in E. simpl in E. injection E as E _. congruence.
Qed.

Lemma replace_extension (base ext : string) :
  contains_char "." base = false ->
  PyStr.replace (base ++ String "." ext) (String "." ext) "" = base.
Proof.
  unfold PyStr.replace. intros H.
  induction base as [|c base IH]; cbn -[String.prefix].
  - rewrite prefix_refl. cbn -[String.prefix]. rewrite Nat.sub_0_r.
    apply replace_from_skip. lia.
  - cbn in H. apply orb_false_iff in H. destruct H as [Hc Hb].
    rewrite prefix_head_differs
      by (intros <-; rewrite Ascii.eqb_refl in Hc; discriminate).
    f_equal. exact (IH Hb).
Qed.

(** X15. A parsed blob named [{dir}/{base}.json], with neither ['/'] nor
    ['.'] in [base], has document id [base], and its chunks go to the blob
    [{year}/{base}.jsonl]. *)
Theorem doc_id_of_blob_name (dir base year : string) :
  contains_char "/" base = false ->
  contains_char "." base = false ->
  Stage3.doc_id_of (dir ++ "/" ++ base ++ ".json") = base /\
  Stage3.output_blob_of (dir ++ "/" ++ base ++ ".json") year
    = (year ++ "/" ++ base ++ ".jsonl")%string.
Proof.
  intros Hs Hd.
  assert (Hid : Stage3.doc_id_of (dir ++ "/" ++ base ++ ".json") = base).
  { unfold Stage3.doc_id_of.
    assert (Ht : contains_char "/" (base ++ ".json") = false).
    { clear Hd. induction base as [|c b IH]; simpl; [reflexivity|].
      simpl in Hs. apply orb_false_iff in Hs. destruct Hs as [Hc Hb].
      rewrite Hc. exact (IH Hb). }
    destruct (split_char_last_piece "/" dir (base ++ ".json") Ht)
      as [pieces [_ Hp]].
    change (dir ++ "/" ++ base ++ ".json")%string
      with (dir ++ String "/" (base ++ ".json"))%string.
    rewrite Hp, last_last. apply replace_extension. exact Hd. }
  split; [exact Hid|]. unfold Stage3.output_blob_of. rewrite Hid. reflexivity.
Qed.

Lemma doc_id_of_blob_name_witness :
  contains_char "/" "1234" = false /\
  Stage3.doc_id_of "2024/1234.json" = "1234" /\
  Stage3.output_blob_of "2024/1234.json" "2024" = "2024/1234.jsonl".
Proof.
  split; [reflexivity|].
  apply (doc_id_of_blob_name "2024" "1234" "2024"); reflexivity.
Defined.

(** ** Stripping *)

Lemma lstrip_idempotent (s : string) :
  PyStr.lstrip (PyStr.lstrip s) = PyStr.lstrip s.
Proof.
  induction s as [|c s IH]; simpl; [reflexivity|].
  destruct (Py.isspace c) eqn:E; [exact IH|]. simpl. rewrite E. reflexivity.
Qed.

Lemma lstrip_length (s : string) :
  (String.length (PyStr.lstrip s) <= String.length s)%nat.
Proof.
  induction s as [|c s IH]; simpl; [lia|].
  destruct (Py.isspace c); simpl; lia.
Qed.

Lemma rstrip_idempotent (s : string) :
  PyStr.rstrip (PyStr.rstrip s) = PyStr.rstrip s.
Proof.
  induction s as [|c s IH]; simpl; [reflexivity|].
  destruct (PyStr.rstrip s) as [|d r] eqn:Er.
  - destruct (Py.isspace c) eqn:E; simpl; [reflexivity|].
    rewrite E. reflexivity.
  - simpl in IH. simpl. destruct (PyStr.rstrip r) as [|d' r'] eqn:Er'.
    + destruct (Py.isspace d); [discriminate|]. injection IH as <-.
      reflexivity.
    + injection IH as <-. reflexivity.
Qed.

Lemma lstrip_rstrip (s : string) :
  PyStr.lstrip s = s -> PyStr.lstrip (PyStr.rstrip s) = PyStr.rstrip s.
Proof.
  destruct s as [|c s]; [reflexivity|]. simpl.
  destruct (Py.isspace c) eqn:E.
  - intros H. pose proof (lstrip_length s) as Hl. rewrite H in Hl.
    simpl in Hl. lia.
  - intros _. destruct (PyStr.rstrip s); simpl; rewrite E; reflexivity.
Qed.

Lemma strip_idempotent (s : string) :
  PyStr.strip (PyStr.strip s) = PyStr.strip s.
Proof.
  unfold PyStr.strip.
  rewrite (lstrip_rstrip (PyStr.lstrip s) (lstrip_idempotent s)).
  apply rstrip_idempotent.
Qed.

(** ** What the parsers hand to the chunker *)

Lemma stripped_text_clean (x : option Element) (t : string) :
  stripped_text x = Some t -> PyStr.strip t = t.
Proof.
  unfold stripped_text. destruct x as [e|]; [|discriminate].
  destruct (ET.text e) as [[|c s]|]; try discriminate.
  intros [= <-]. apply strip_idempotent.
Qed.

Lemma paragraph_clean (elem : Element) (level : Z) (p : string) :
  In p (paragraphs (extract_section_content elem level)) ->
  p <> "" /\ PyStr.strip p = p.
Proof.
  simpl. intros H. apply in_flat_map in H. destruct H as [para [_ H]].
  destruct (ET.text para) as [[|c s]|]; try destruct H.
  destruct (PyStr.strip (String c s)) as [|d r] eqn:Es; [destruct H|].
  destruct H as [<-|[]]. split; [discriminate|].
  rewrite <- Es. apply strip_idempotent.
Qed.

(** X16. Every paragraph [extract_section_content] returns is non-empty
    and has no whitespace at either end (it is its own [strip()]); the
    number and the heading, when present, are stripped as well. *)
Theorem extracted_text_is_stripped (elem : Element) (level : Z) :
  Forall (fun p => p <> "" /\ PyStr.strip p = p)
    (paragraphs (extract_section_content elem level)) /\
  (forall h, heading (extract_section_content elem level) = Some h ->
             PyStr.strip h = h) /\
  (forall n, number (extract_section_content elem level) = Some n ->
             PyStr.strip n = n).
Proof.
  split; [|split].
  - apply Forall_forall. intros p Hp. exact (paragraph_clean elem level p Hp).
  - intros h H. exact (stripped_text_clean _ _ H).
  - intros n H. exact (stripped_text_clean _ _ H).
Qed.

Lemma filter_all {A : Type} (l : list A) :
  filter (fun _ => true) l = l.
Proof. induction l as [|x l IH]; simpl; [reflexivity | f_equal; exact IH]. Qed.

Lemma stage2_collect (root : Element) (name : string) (level : Z) :
  Stage2.collect root name level
  = filter (fun s => match paragraphs s with [] => false | _ => true end)
      (Parse.collect root name level).
Proof.
  unfold Stage2.collect, Parse.collect, dict_truthy. rewrite filter_all.
  reflexivity.
Qed.

(** X17. The two parsers differ by one filter. [extract_sections] of
    parse.py keeps one section dict for every [section], [chapter] and
    [article] element, its [if section:] test never failing; the staged
    parser returns the same list with the sections that have no paragraph
    taken out. *)
Theorem stage2_sections_are_filtered (root : Element) :
  Parse.extract_sections root
  = (map (fun e => extract_section_content e 1)
       (ET.findall root (akn "section"))
     ++ map (fun e => extract_section_content e 0)
          (ET.findall root (akn "chapter"))
     ++ map (fun e => extract_section_content e 2)
          (ET.findall root (akn "article")))%list /\
  Stage2.extract_sections root
  = filter (fun s => match paragraphs s with [] => false | _ => true end)
      (Parse.extract_sections root).
Proof.
  split.
  - unfold Parse.extract_sections, Parse.collect, dict_truthy.
    rewrite !filter_all. reflexivity.
  - unfold Stage2.extract_sections, Parse.extract_sections.
    rewrite !filter_app, !stage2_collect. reflexivity.
Qed.

Lemma concat_nonempty (sep : string) (l : list string) (x : string) :
  sep <> "" -> In x l -> x <> "" -> String.concat sep l <> "".
Proof.
  intros Hsep. induction l as [|y l IH]; intros Hin Hx; [destruct Hin|].
  destruct l as [|z l].
  - destruct Hin as [->|[]]. exact Hx.
  - change (String.concat sep (y :: z :: l))
      with (y ++ sep ++ String.concat sep (z :: l))%string.
    destruct y; simpl; [|discriminate].
    destruct sep; [congruence | discriminate].
Qed.

Lemma stage2_section_has_text (root : Element) (s : Section) :
  In s (Stage2.extract_sections root) -> Staged.section_text s <> "".
Proof.
  intros Hin.
  assert (H : exists elem level,
            s = extract_section_content elem level /\ paragraphs s <> []).
  { unfold Stage2.extract_sections, Stage2.collect in Hin.
    repeat (apply in_app_or in Hin; destruct Hin as [Hin|Hin]);
      apply filter_In in Hin; destruct Hin as [Hm Hf];
      apply in_map_iff in Hm; destruct Hm as [elem [<- _]];
      eexists; eexists; (split; [reflexivity|]);
      intros E; rewrite E in Hf; discriminate. }
  destruct H as [elem [level [-> Hne]]].
  destruct (paragraphs (extract_section_content elem level)) as [|p ps] eqn:Ep;
    [congruence|].
  assert (Hp : p <> "").
  { apply (paragraph_clean elem level p). rewrite Ep. left. reflexivity. }
  unfold Staged.section_text. rewrite Ep.
  apply (concat_nonempty para_break _ p); [discriminate | | exact Hp].
  apply in_or_app. right. left. reflexivity.
Qed.

Lemma staged_sections_loop_content (cfg : Staged.Config)
    (doc : ParsedDocument) (encoding : Encoding) (sections : list Section)
    (st st' : DocState) :
  Forall (fun s => Staged.section_text s <> "") sections ->
  Forall (fun c => Chunk.content c <> "") (fst st) ->
  Staged.sections_loop cfg doc encoding sections st = Returns st' ->
  Forall (fun c => Chunk.content c <> "") (fst st') /\
  List.length (fst st') = (List.length (fst st) + List.length sections)%nat.
Proof.
  revert st. induction sections as [|s rest IH]; intros st Hs Hst; simpl.
  - intros [= <-]. split; [exact Hst | lia].
  - inversion Hs as [|? ? Hs1 Hs2]; subst. unfold Staged.chunk_section.
    destruct (Py.llen (encode encoding (Staged.section_text s))
              <=? Staged.MAX_CHUNK_SIZE cfg); simpl; [|discriminate].
    intros Hl. apply IH in Hl; [| exact Hs2 |].
    + destruct Hl as [Hall Hlen]. split; [exact Hall|].
      rewrite Hlen. unfold renumber. simpl. rewrite length_app. simpl. lia.
    + unfold renumber. simpl. apply Forall_app. split; [exact Hst|].
      constructor; [exact Hs1 | constructor].
Qed.

(** X18. Parsed by the staged parser, chunked by the staged chunker:
    when the document's sections are those the stage-2 parser extracted
    and there is at least one, every record the stage-3 [chunk_document]
    returns has a non-empty content, and there is one record per
    section. *)
Theorem staged_pipeline_content_nonempty (cfg : Staged.Config) (fuel : nat)
    (root : Element) (doc : ParsedDocument) (encoding : Encoding)
    (chunks : list ChunkRecord) :
  Doc.sections doc = Stage2.extract_sections root ->
  Doc.sections doc <> [] ->
  Staged.chunk_document cfg fuel doc encoding = Returns chunks ->
  Forall (fun c => Chunk.content c <> "") chunks /\
  List.length chunks = List.length (Doc.sections doc).
Proof.
  intros Hs Hne. unfold Staged.chunk_document.
  destruct (Doc.sections doc) as [|x rest] eqn:Es; [congruence|].
  destruct (Staged.sections_loop cfg doc encoding (x :: rest) ([], 0))
    as [st|e|] eqn:El; simpl; try discriminate.
  intros [= <-].
  apply (staged_sections_loop_content cfg doc encoding (x :: rest) ([], 0) st);
    [| constructor | exact El].
  apply Forall_forall. intros s Hin.
  apply (stage2_section_has_text root). rewrite <- Hs. exact Hin.
Qed.

Lemma staged_pipeline_content_nonempty_witness :
  Doc.sections (sample_doc (Stage2.extract_sections sample_root) "") <> [] /\
  Forall (fun c => Chunk.content c <> "")
    [Chunk.set_chunk_index
       (Staged.create_chunk_dict
          (sample_doc (Stage2.extract_sections sample_root) "")
          (Staged.section_text sec_scope) 0 (Some "1") (Some "Scope")) 0].
Proof.
  split; [vm_compute; discriminate|].
  apply (staged_pipeline_content_nonempty Staged.default_config 0 sample_root
           (sample_doc (Stage2.extract_sections sample_root) "")
           char_encoding);
    [reflexivity | vm_compute; discriminate | vm_compute; reflexivity].
Defined.

(** ** A parsed document always has chunks *)

Lemma chunk_text_loop_extends (fuel : nat) (encoding : Encoding)
    (tokens : list Z) (min_size max_size overlap start : Z)
    (acc r : list string) :
  Single.chunk_text_loop fuel encoding tokens min_size max_size overlap
    start acc = Returns r ->
  exists rest, r = (acc ++ rest)%list.
Proof.
  revert start acc. induction fuel as [|fuel IH]; intros start acc; simpl;
    destruct (start <? Py.llen tokens); try discriminate;
    try (intros [= <-]; exists []; rewrite app_nil_r; reflexivity).
  destruct (Single.chunk_text_iter encoding tokens min_size max_size overlap
              start) as [ct start'].
  intros H. apply IH in H. destruct H as [rest ->].
  exists (ct :: rest). rewrite <- app_assoc. reflexivity.
Qed.

Lemma chunk_text_some_piece (fuel : nat) (text : string)
    (encoding : Encoding) (min_size max_size overlap : Z)
    (pieces : list string) :
  0 <= max_size ->
  Single.chunk_text fuel text encoding min_size max_size overlap
    = Returns pieces ->
  pieces <> [].
Proof.
  intros Hmax. unfold Single.chunk_text.
  destruct (Py.llen (encode encoding text) <=? max_size) eqn:E.
  - intros [= <-]. discriminate.
  - apply Z.leb_gt in E. destruct fuel as [|fuel]; simpl.
    + replace (0 <? Py.llen (encode encoding text)) with true
        by (symmetry; apply Z.ltb_lt; lia). discriminate.
    + replace (0 <? Py.llen (encode encoding text)) with true
        by (symmetry; apply Z.ltb_lt; lia).
      destruct (Single.chunk_text_iter encoding (encode encoding text)
                  min_size max_size overlap 0) as [ct start'].
      intros H. apply chunk_text_loop_extends in H. destruct H as [rest ->].
      discriminate.
Qed.

Lemma sections_loop_length (doc : ParsedDocument) (encoding : Encoding)
    (sections : list Section) (st st' : DocState) :
  Single.sections_loop doc encoding sections st = Returns st' ->
  List.length (fst st')
  = (List.length (fst st) + List.length sections)%nat.
Proof.
  revert st. induction sections as [|s rest IH]; intros st; simpl.
  - intros [= <-]. lia.
  - destruct (Single.chunk_section doc s encoding) as [cs|e|] eqn:Es; simpl;
      try discriminate.
    apply chunk_section_returns in Es. destruct Es as [_ ->]. simpl.
    intros H. apply IH in H. rewrite H. unfold renumber. simpl.
    rewrite length_app. simpl. lia.
Qed.

Lemma full_text_nonempty (title : string) (sections : list Section) :
  Parse.full_text_of title sections <> "".
Proof.
  unfold Parse.full_text_of.
  apply (concat_nonempty _ _ ("# " ++ title ++ String LF "")%string);
    [discriminate | left; reflexivity | discriminate].
Qed.

(** X19. A document as parse.py builds it never chunks to nothing: its
    [full_text] starts with the title line [# {title}], so it is never
    empty, and whenever [chunk_document] returns for such a document it
    returns at least one record, with or without sections. *)
Theorem parsed_document_has_chunks (fuel : nat) (doc : ParsedDocument)
    (encoding : Encoding) (chunks : list ChunkRecord) :
  Doc.full_text doc = Parse.full_text_of (Doc.title doc) (Doc.sections doc) ->
  Single.chunk_document fuel doc encoding = Returns chunks ->
  Doc.full_text doc <> "" /\ chunks <> [].
Proof.
  intros Ht H. split; [rewrite Ht; apply full_text_nonempty|].
  revert H. unfold Single.chunk_document.
  destruct (Doc.sections doc) as [|s rest] eqn:Es.
  - destruct (Doc.full_text doc) as [|c t] eqn:Ef.
    + exfalso. symmetry in Ht. exact (full_text_nonempty _ _ Ht).
    + destruct (Single.chunk_text fuel (String c t) encoding
                  Single.MIN_CHUNK_SIZE Single.MAX_CHUNK_SIZE
                  Single.OVERLAP_SIZE) as [pieces|e|] eqn:Ec; simpl;
        try discriminate.
      apply chunk_text_some_piece in Ec; [|discriminate].
      intros [= <-]. destruct pieces; [congruence | discriminate].
  - destruct (Single.sections_loop doc encoding (s :: rest) ([], 0))
      as [st|e|] eqn:El; simpl; try discriminate.
    intros [= <-]. apply sections_loop_length in El. simpl in El.
    destruct (fst st); [discriminate | discriminate].
Qed.

Lemma parsed_document_has_chunks_witness :
  Doc.full_text (sample_doc [] (Parse.full_text_of "Sample Act" []))
    <> "" /\
  [Single.create_chunk_dict
     (sample_doc [] (Parse.full_text_of "Sample Act" []))
     (Parse.full_text_of "Sample Act" []) 0 None None] <> [].
Proof.
  apply (parsed_document_has_chunks 0
           (sample_doc [] (Parse.full_text_of "Sample Act" []))
           char_encoding);
    [reflexivity | vm_compute; reflexivity].
Defined.

(** ** Batches *)

Lemma slice_window {A : Type} (l : list A) (lo w : nat) :
  Py.slice l (Z.of_nat lo) (Z.of_nat lo + Z.of_nat w)
  = firstn w (skipn lo l).
Proof.
  unfold Py.slice, Py.clamp, Py.llen.
  replace (Z.of_nat lo <? 0) with false by (symmetry; apply Z.ltb_ge; lia).
  replace (Z.of_nat lo + Z.of_nat w <? 0) with false
    by (symmetry; apply Z.ltb_ge; lia).
  destruct (Nat.le_gt_cases lo (List.length l)) as [Hle|Hgt].
  - replace (Z.to_nat (Z.min (Z.of_nat lo) (Z.of_nat (List.length l))))
      with lo by lia.
    destruct (Nat.le_gt_cases (lo + w) (List.length l)) as [Hw|Hw].
    + f_equal. lia.
    + rewrite (firstn_all2 (n := w)) by (rewrite length_skipn; lia).
      apply firstn_all2. rewrite length_skipn. lia.
  - rewrite (skipn_all2 (n := lo)) by lia. rewrite firstn_nil.
    rewrite skipn_all2 by lia. apply firstn_nil.
Qed.

Lemma firstn_plus {A : Type} (a b : nat) (l : list A) :
  firstn (a + b) l = (firstn a l ++ firstn b (skipn a l))%list.
Proof.
  revert l. induction a as [|a IH]; intros l; [reflexivity|].
  destruct l as [|x l]; simpl; [rewrite firstn_nil; reflexivity|].
  f_equal. apply IH.
Qed.

Lemma windows_concat {A : Type} (l : list A) (size m j : nat) :
  List.concat (map (fun k => firstn size (skipn (k * size) l)) (seq j m))
  = firstn (m * size) (skipn (j * size) l).
Proof.
  revert j. induction m as [|m IH]; intros j; [reflexivity|].
  simpl seq. simpl map. simpl List.concat. rewrite IH.
  replace (S m * size)%nat with (size + m * size)%nat by lia.
  rewrite firstn_plus, skipn_skipn. reflexivity.
Qed.

Lemma batches_windows {A : Type} (size : nat) (l : list A) :
  Embed.batches (Z.of_nat size) l
  = map (fun k => firstn size (skipn (k * size) l))
        (seq 0 (Z.to_nat ((Py.llen l + Z.of_nat size - 1) / Z.of_nat size))).
Proof.
  unfold Embed.batches. apply map_ext. intros k.
  rewrite <- Nat2Z.inj_mul. apply slice_window.
Qed.

Lemma batch_count_spec (n s : nat) :
  (0 < s)%nat ->
  let q := Z.to_nat ((Z.of_nat n + Z.of_nat s - 1) / Z.of_nat s) in
  (n <= q * s)%nat /\ forall k, (k < q)%nat -> (k * s < n)%nat.
Proof.
  intros Hpos.
  assert (H0 : 0 <= Z.of_nat n + Z.of_nat s - 1) by lia.
  assert (Hs0 : 0 < Z.of_nat s) by lia.
  pose proof (Z.div_pos _ _ H0 Hs0) as Hd.
  pose proof (Z.mul_div_le (Z.of_nat n + Z.of_nat s - 1) _ Hs0) as Hlo.
  pose proof (Z.mul_succ_div_gt (Z.of_nat n + Z.of_nat s - 1) _ Hs0) as Hhi.
  cbv zeta.
  set (d := (Z.of_nat n + Z.of_nat s - 1) / Z.of_nat s) in *.
  split; [nia|]. intros k Hk. nia.
Qed.

Lemma batches_concat {A : Type} (size : Z) (l : list A) :
  0 < size -> List.concat (Embed.batches size l) = l.
Proof.
  intros Hs. replace size with (Z.of_nat (Z.to_nat size)) by lia.
  rewrite batches_windows, windows_concat. simpl skipn.
  apply firstn_all2.
  apply (batch_count_spec (List.length l) (Z.to_nat size)). lia.
Qed.

(** X20. Cutting a list into batches of a positive size loses nothing
    and invents nothing: the batches put end to end are the list itself,
    and every batch has at least one and at most [size] elements. *)
Theorem batches_partition {A : Type} (size : Z) (l : list A) :
  0 < size ->
  List.concat (Embed.batches size l) = l /\
  Forall (fun b => 0 < Py.llen b <= size) (Embed.batches size l).
Proof.
  intros Hs. split; [apply batches_concat; exact Hs|].
  replace size with (Z.of_nat (Z.to_nat size)) by lia.
  rewrite batches_windows.
  destruct (batch_count_spec (List.length l) (Z.to_nat size)) as [_ Hfull];
    [lia|].
  apply Forall_forall. intros b Hb. apply in_map_iff in Hb.
  destruct Hb as [k [<- Hk]]. apply in_seq in Hk.
  specialize (Hfull k ltac:(unfold Py.llen in Hk; lia)). unfold Py.llen.
  rewrite length_firstn, length_skipn. lia.
Qed.

Lemma batches_partition_witness :
  0 < 2 /\
  List.concat (Embed.batches 2 [1; 2; 3; 4; 5]) = [1; 2; 3; 4; 5].
Proof.
  split; [lia|]. apply (batches_partition 2 [1; 2; 3; 4; 5]). lia.
Defined.

(** ** Embedding *)

Lemma attach_keeps {Vector : Type} (batch : list ChunkRecord)
    (data : list Vector) (out : list (ChunkRecord * Vector)) :
  Embed.attach Vector batch data = Some out -> map fst out = batch.
Proof.
  revert data out. induction batch as [|c batch IH]; intros data out; simpl.
  - intros [= <-]. reflexivity.
  - destruct data as [|v data]; [discriminate|].
    destruct (Embed.attach Vector batch data) as [r|] eqn:E; [|discriminate].
    intros [= <-]. simpl. f_equal. exact (IH _ _ E).
Qed.

Lemma embed_loop_keeps {Vector : Type}
    (create : list string -> option (list Vector))
    (todo : list (list ChunkRecord)) (acc out : list (ChunkRecord * Vector)) :
  Embed.embed_loop Vector create todo acc = Some out ->
  map fst out = (map fst acc ++ List.concat todo)%list.
Proof.
  revert acc. induction todo as [|batch todo IH]; intros acc; simpl.
  - intros [= <-]. rewrite app_nil_r. reflexivity.
  - destruct (create (map Chunk.content batch)) as [data|]; [|discriminate].
    destruct (Embed.attach Vector batch data) as [embedded|] eqn:Ea;
      [|discriminate].
    intros H. apply IH in H. rewrite H, map_app, <- app_assoc.
    rewrite (attach_keeps _ _ _ Ea). reflexivity.
Qed.

(** X21. When [generate_embeddings] returns, it returns every chunk it
    was given, once each and in the same order, each with a vector; no
    chunk is dropped, duplicated or moved by the batching. *)
Theorem generate_embeddings_keeps_chunks {Vector : Type}
    (create : list string -> option (list Vector)) (endpoint_set : bool)
    (chunks : list ChunkRecord) (out : list (ChunkRecord * Vector)) :
  Embed.generate_embeddings Vector create endpoint_set chunks = Some out ->
  map fst out = chunks.
Proof.
  unfold Embed.generate_embeddings.
  destruct endpoint_set; [|discriminate].
  intros H. apply embed_loop_keeps in H. rewrite H. simpl.
  apply batches_concat. reflexivity.
Qed.

Lemma generate_embeddings_keeps_chunks_witness :
  Embed.generate_embeddings nat (fun texts => Some (map String.length texts))
    true sample_records
  = Some (combine sample_records
            (map (fun c => String.length (Chunk.content c)) sample_records)) /\
  map fst (combine sample_records
             (map (fun c => String.length (Chunk.content c)) sample_records))
  = sample_records.
Proof.
  split; [vm_compute; reflexivity|].
  apply (generate_embeddings_keeps_chunks
           (fun texts => Some (map String.length texts)) true sample_records).
  vm_compute. reflexivity.
Defined.

(** ** Document ids from file names *)

Lemma split_char_nonempty (sep : ascii) (s : string) :
  PyStr.split_char sep s <> [].
Proof.
  induction s as [|c s IH]; simpl; [discriminate|].
  destruct (Ascii.eqb c sep); [discriminate|].
  destruct (PyStr.split_char sep s); discriminate.
Qed.

Lemma split_char_pieces (sep : ascii) (s : string) :
  Forall (fun piece => contains_char sep piece = false)
    (PyStr.split_char sep s).
Proof.
  induction s as [|c s IH]; simpl.
  - constructor; [reflexivity | constructor].
  - destruct (Ascii.eqb c sep) eqn:Ec.
    + constructor; [reflexivity | exact IH].
    + destruct (PyStr.split_char sep s) as [|piece pieces].
      * constructor; [simpl; rewrite Ec; reflexivity | constructor].
      * inversion IH as [|? ? Hp Hps]; subst.
        constructor; [simpl; rewrite Ec, Hp; reflexivity | exact Hps].
Qed.

Lemma last_in_list {A : Type} (l : list A) (d : A) :
  l <> [] -> In (List.last l d) l.
Proof.
  induction l as [|x l IH]; intros Hne; [congruence|].
  destruct l as [|y l]; [left; reflexivity|].
  right. apply IH. discriminate.
Qed.

Lemma replace_from_keeps_out (c : ascii) (old s : string) (skip : nat) :
  contains_char c s = false ->
  contains_char c (PyStr.replace_from old "" skip s) = false.
Proof.
  revert skip. induction s as [|d s IH]; intros skip H; [reflexivity|].
  cbn in H. apply orb_false_iff in H. destruct H as [Hd Hs].
  cbn -[String.prefix]. destruct skip as [|k]; [|apply IH; exact Hs].
  destruct (String.prefix old (String d s)).
  - cbn. apply IH. exact Hs.
  - cbn. rewrite Hd. apply IH. exact Hs.
Qed.

(** X22. [extract_document_id] always takes its first return: splitting
    never gives an empty list, so the final [return filename] is never
    reached, and the id is the last path component with ['.xml'] taken
    out. The id therefore never contains ['/']; and for a file
    [{dir}/{base}.xml], with neither ['/'] nor ['.'] in [base], the id is
    [base]. *)
Theorem extract_document_id_basename :
  (forall filename,
     extract_document_id filename
     = PyStr.replace (List.last (PyStr.split_char "/" filename) "")
         ".xml" "" /\
     contains_char "/" (extract_document_id filename) = false) /\
  (forall dir base,
     contains_char "/" base = false ->
     contains_char "." base = false ->
     extract_document_id (dir ++ "/" ++ base ++ ".xml") = base).
Proof.
  assert (Hfirst : forall filename,
            extract_document_id filename
            = PyStr.replace (List.last (PyStr.split_char "/" filename) "")
                ".xml" "").
  { intros filename. unfold extract_document_id.
    pose proof (split_char_nonempty "/" filename) as Hne.
    destruct (PyStr.split_char "/" filename) as [|p ps] eqn:Es; [congruence|].
    cbv zeta. unfold Py.llen. simpl List.length.
    replace (0 <? Z.of_nat (S (List.length ps))) with true
      by (symmetry; apply Z.ltb_lt; lia).
    reflexivity. }
  split.
  - intros filename. split; [apply Hfirst|]. rewrite Hfirst.
    unfold PyStr.replace. apply replace_from_keeps_out.
    pose proof (split_char_pieces "/" filename) as Hall.
    apply (proj1 (Forall_forall _ _) Hall).
    apply last_in_list, split_char_nonempty.
  - intros dir base Hs Hd. rewrite Hfirst.
    assert (Ht : contains_char "/" (base ++ ".xml") = false).
    { clear Hd. induction base as [|c b IH]; simpl; [reflexivity|].
      simpl in Hs. apply orb_false_iff in Hs. destruct Hs as [Hc Hb].
      rewrite Hc. exact (IH Hb). }
    destruct (split_char_last_piece "/" dir (base ++ ".xml") Ht)
      as [pieces [Hne Hp]].
    change (dir ++ "/" ++ base ++ ".xml")%string
      with (dir ++ String "/" (base ++ ".xml"))%string.
    rewrite Hp, last_last. apply replace_extension. exact Hd.
Qed.

(** ** Overlap between consecutive cuts *)

Lemma cut_tokens_window (tokens : list Z) (max_size overlap : Z) (i : nat) :
  0 <= overlap < max_size ->
  cut_tokens tokens max_size overlap i
  = firstn (Z.to_nat max_size)
      (skipn (i * Z.to_nat (max_size - overlap)) tokens).
Proof.
  intros Ho. unfold cut_tokens. cbv zeta.
  set (a := (i * Z.to_nat (max_size - overlap))%nat).
  replace (Z.of_nat i * (max_size - overlap)) with (Z.of_nat a)
    by (unfold a; lia).
  destruct (Z.le_gt_cases (Z.of_nat a + max_size) (Py.llen tokens)) as [H|H].
  - replace (Z.min (Z.of_nat a + max_size) (Py.llen tokens))
      with (Z.of_nat a + Z.of_nat (Z.to_nat max_size)) by lia.
    apply slice_window.
  - replace (Z.min (Z.of_nat a + max_size) (Py.llen tokens))
      with (Py.llen tokens) by lia.
    unfold Py.llen in *.
    destruct (Nat.le_gt_cases a (List.length tokens)) as [Ha|Ha].
    + replace (Z.of_nat (List.length tokens))
        with (Z.of_nat a + Z.of_nat (List.length tokens - a)) by lia.
      rewrite slice_window.
      rewrite !firstn_all2 by (rewrite length_skipn; lia). reflexivity.
    + unfold Py.slice, Py.clamp, Py.llen.
      replace (Z.of_nat a <? 0) with false by (symmetry; apply Z.ltb_ge; lia).
      replace (Z.of_nat (List.length tokens) <? 0) with false
        by (symmetry; apply Z.ltb_ge; lia).
      replace (Z.to_nat (Z.min (Z.of_nat (List.length tokens))
                           (Z.of_nat (List.length tokens))
                         - Z.min (Z.of_nat a) (Z.of_nat (List.length tokens))))
        with 0%nat by lia.
      rewrite (skipn_all2 (n := a)) by lia. rewrite firstn_nil. reflexivity.
Qed.

(** X23. The overlap property of token-exact cuts. When snapping never
    finds a boundary, chunk [i] of [chunk_text] is the decoding of the
    token window [cut_tokens i]; every window but the last has exactly
    [max_size] tokens, and its last [overlap] tokens are the first
    [overlap] tokens of the next window. *)
Theorem consecutive_cuts_overlap (encoding : Encoding) (text : string)
    (min_size max_size overlap : Z) :
  0 <= overlap < max_size ->
  max_size < Py.llen (encode encoding text) ->
  (forall start,
     0 <= start < Py.llen (encode encoding text) ->
     snap encoding (encode encoding text) min_size max_size start = None) ->
  Single.chunk_text
    (cut_count (Py.llen (encode encoding text)) max_size overlap)
    text encoding min_size max_size overlap
  = Returns
      (map (fun i => decode encoding
                       (cut_tokens (encode encoding text) max_size overlap i))
           (seq 0 (cut_count (Py.llen (encode encoding text))
                     max_size overlap))) /\
  forall i,
    (S i < cut_count (Py.llen (encode encoding text)) max_size overlap)%nat ->
    Py.llen (cut_tokens (encode encoding text) max_size overlap i)
      = max_size /\
    skipn (Z.to_nat (max_size - overlap))
      (cut_tokens (encode encoding text) max_size overlap i)
    = firstn (Z.to_nat overlap)
        (cut_tokens (encode encoding text) max_size overlap (S i)).
Proof.
  intros Ho Hbig Hsnap. split.
  - unfold Single.chunk_text.
    replace (Py.llen (encode encoding text) <=? max_size) with false
      by (symmetry; apply Z.leb_gt; exact Hbig).
    pose proof (cut_count_spec (encode encoding text) max_size overlap
                  Ho Hbig) as [Hq _]. cbv zeta in Hq.
    destruct (cut_count (Py.llen (encode encoding text)) max_size overlap)
      as [|n] eqn:Ek; [lia|].
    apply (chunk_text_loop_cuts encoding (encode encoding text) min_size
             max_size overlap Ho Hbig Hsnap n 0 (S n) []); [|lia].
    rewrite Ek. reflexivity.
  - intros i Hi.
    pose proof (cut_count_spec (encode encoding text) max_size overlap
                  Ho Hbig) as [_ [_ Hbefore]]. cbv zeta in Hbefore.
    specialize (Hbefore (Z.of_nat i) ltac:(lia)).
    set (tokens := encode encoding text) in *.
    set (step := Z.to_nat (max_size - overlap)).
    assert (Hlen : (i * step + Z.to_nat max_size <= List.length tokens)%nat).
    { unfold Py.llen, step in *. nia. }
    rewrite !cut_tokens_window by exact Ho. fold step. split.
    + unfold Py.llen. rewrite length_firstn, length_skipn. lia.
    + rewrite skipn_firstn_comm, skipn_skipn.
      replace (step + i * step)%nat with (S i * step)%nat by lia.
      rewrite firstn_firstn. f_equal. unfold step. lia.
Qed.

Lemma consecutive_cuts_overlap_witness :
  0 <= 1 < 10 /\
  skipn (Z.to_nat (10 - 1))
    (cut_tokens (encode char_encoding (repeat_char "a" 25)) 10 1 0)
  = firstn (Z.to_nat 1)
      (cut_tokens (encode char_encoding (repeat_char "a" 25)) 10 1 1).
Proof.
  split; [lia|].
  apply (consecutive_cuts_overlap char_encoding (repeat_char "a" 25) 8 10 1);
    [lia | vm_compute; reflexivity | | vm_compute; lia].
  intros start Hs.
  assert (Hc : In start [0; 1; 2; 3; 4; 5; 6; 7; 8; 9; 10; 11; 12; 13; 14;
                         15; 16; 17; 18; 19; 20; 21; 22; 23; 24])
    by (change (Py.llen (encode char_encoding (repeat_char "a" 25)))
          with 25 in Hs; simpl; lia).
  simpl in Hc.
  repeat (destruct Hc as [<-|Hc]; [vm_compute; reflexivity|]).
  destruct Hc.
Defined.

(** ** Where a snapped chunk ends *)

Lemma positive_boundary_kind (text : string) (start_pos : nat) :
  0 < find_sentence_boundary text start_pos ->
  exists r : nat,
    find_sentence_boundary text start_pos = Z.of_nat r /\
    (0 < r)%nat /\
    (sentence_end_at text (r - 1) \/ para_break_at text r).
Proof.
  unfold find_sentence_boundary, Py.find.
  destruct (sentence_loop text start_pos (String.length text - start_pos))
    as [r|] eqn:El.
  - intros _. apply sentence_loop_some in El.
    destruct El as [k [-> [_ [_ [Hk _]]]]].
    exists (S k). split; [reflexivity|]. split; [lia|].
    left. replace (S k - 1)%nat with k by lia. exact Hk.
  - destruct (String.index start_pos para_break text) as [p|] eqn:Ei;
      [|simpl; lia].
    destruct (0 <? Z.of_nat p) eqn:Ep; [|lia].
    intros _. apply Z.ltb_lt in Ep. apply find_some in Ei.
    destruct Ei as [_ [Hb _]].
    exists p. split; [reflexivity|]. split; [lia|]. right. exact Hb.
Qed.

(** X24. When an iteration of [chunk_text] snaps, tokens remain after the
    slice and the slice has at least [min_size] tokens; the chunk it
    emits is a non-empty prefix of the decoded slice, at least 80% of its
    length, and it ends right after a sentence end or right before a
    paragraph break of the decoded slice. *)
Theorem snapped_chunk_ends_at_boundary (encoding : Encoding)
    (tokens : list Z) (min_size max_size start : Z) (ct : string) :
  snap encoding tokens min_size max_size start = Some ct ->
  let end_ := Z.min (start + max_size) (Py.llen tokens) in
  let chunk_tokens := Py.slice tokens start end_ in
  let decoded := decode encoding chunk_tokens in
  end_ < Py.llen tokens /\
  min_size <= Py.llen chunk_tokens /\
  exists r : nat,
    ct = substring 0 r decoded /\
    String.length ct = r /\
    (0 < r <= String.length decoded)%nat /\
    int_08 (Py.len decoded) <= Z.of_nat r /\
    (sentence_end_at decoded (r - 1) \/ para_break_at decoded r).
Proof.
  unfold snap. cbv zeta.
  set (end_ := Z.min (start + max_size) (Py.llen tokens)).
  set (decoded := decode encoding (Py.slice tokens start end_)).
  destruct ((end_ <? Py.llen tokens)
            && (min_size <=? Py.llen (Py.slice tokens start end_))) eqn:Eg;
    [|discriminate].
  apply andb_true_iff in Eg. destruct Eg as [Elt Emin].
  apply Z.ltb_lt in Elt. apply Z.leb_le in Emin.
  destruct (0 <? find_sentence_boundary decoded
                   (Z.to_nat (int_08 (Py.len decoded)))) eqn:Er;
    [|discriminate].
  apply Z.ltb_lt in Er. intros [= <-].
  split; [exact Elt|]. split; [exact Emin|].
  destruct (positive_boundary_kind _ _ Er) as [r [Hr [Hpos Hkind]]].
  destruct (positive_boundary_in_text _ _ Er) as [[Hlo Hhi] Hcut].
  rewrite Hr in *. unfold Py.str_upto in *. rewrite Nat2Z.id in *.
  unfold Py.len in Hhi, Hcut.
  assert (H08 : 0 <= int_08 (Py.len decoded))
    by (unfold int_08, Py.len; apply Z.div_pos; lia).
  rewrite Z2Nat.id in Hlo by exact H08.
  exists r. split; [reflexivity|]. split; [lia|]. split; [lia|].
  split; [exact Hlo | exact Hkind].
Qed.

Lemma snapped_chunk_ends_at_boundary_witness :
  snap char_encoding (encode char_encoding short_text) 8 10 0
    = Some "aaaaaaaa." /\
  exists r : nat,
    "aaaaaaaa." = substring 0 r "aaaaaaaa. " /\
    String.length "aaaaaaaa." = r /\
    (0 < r <= String.length "aaaaaaaa. ")%nat /\
    int_08 (Py.len "aaaaaaaa. ") <= Z.of_nat r /\
    (sentence_end_at "aaaaaaaa. " (r - 1) \/ para_break_at "aaaaaaaa. " r).
Proof.
  split; [vm_compute; reflexivity|].
  apply (snapped_chunk_ends_at_boundary char_encoding
           (encode char_encoding short_text) 8 10 0 "aaaaaaaa.").
  vm_compute. reflexivity.
Defined.

(** ** Ids on the section path *)

Lemma sections_loop_ids (doc : ParsedDocument) (encoding : Encoding)
    (sections : list Section) (st st' : DocState) :
  Forall (fun c => Chunk.id c = (Doc.document_id doc ++ "_chunk_0")%string)
    (fst st) ->
  Single.sections_loop doc encoding sections st = Returns st' ->
  Forall (fun c => Chunk.id c = (Doc.document_id doc ++ "_chunk_0")%string)
    (fst st').
Proof.
  revert st. induction sections as [|s rest IH]; intros st Hst; simpl.
  - intros [= <-]. exact Hst.
  - destruct (Single.chunk_section doc s encoding) as [cs|e|] eqn:Es; simpl;
      try discriminate.
    apply chunk_section_returns in Es. destruct Es as [_ ->]. simpl.
    apply IH. unfold renumber. simpl. apply Forall_app. split; [exact Hst|].
    constructor; [reflexivity | constructor].
Qed.

(** X25. On the section path every record gets the same id: for a
    document with sections, all the records [chunk_document] returns have
    the id [{document_id}_chunk_0], whatever their [chunk_index]. *)
Theorem section_records_share_id (fuel : nat) (doc : ParsedDocument)
    (encoding : Encoding) (chunks : list ChunkRecord) :
  Doc.sections doc <> [] ->
  Single.chunk_document fuel doc encoding = Returns chunks ->
  Forall (fun c => Chunk.id c = (Doc.document_id doc ++ "_chunk_0")%string)
    chunks.
Proof.
  intros Hne. unfold Single.chunk_document.
  destruct (Doc.sections doc) as [|s rest]; [congruence|].
  destruct (Single.sections_loop doc encoding (s :: rest) ([], 0))
    as [st|e|] eqn:El; simpl; try discriminate.
  intros [= <-].
  apply (sections_loop_ids doc encoding (s :: rest) ([], 0) st);
    [constructor | exact El].
Qed.

Lemma section_records_share_id_witness :
  Doc.sections (sample_doc [sec_scope; sec_penalties] "") <> [] /\
  Forall (fun c => Chunk.id c = "2024-1234_chunk_0") sample_records.
Proof.
  split; [discriminate|].
  apply (section_records_share_id 0 (sample_doc [sec_scope; sec_penalties] "")
           char_encoding sample_records);
    [discriminate | vm_compute; reflexivity].
Defined.
